(** * LIYA: capture-to-result pipeline of [src/App.tsx]

    A shallow embedding of the detection pipeline of the LIYA front-end:
    the coordinate normalizer, the inference client [analyzeImage], the
    result renderer's number formatting and the application state machine
    driven by [handleCapture] and [resetDetection].

    Modelling conventions.
    - A JavaScript [number] is an exact rational extended with the IEEE
      special values [NaN], [+Infinity] and [-Infinity].  Rounding of
      binary64 arithmetic, its overflow and the sign of zero are
      abstracted away; the propagation of [NaN], division by zero and
      truthiness are kept.  The statements below are therefore about
      what rounding to nearest preserves (which bounds a value lies
      between, whether it is [NaN], which element the sort puts first)
      and not about the last digit of an arithmetic result; where a
      statement is about one number, it is checked on the binary64
      value as well ([Binary64]).
    - A number of the JSON body is a [number] too: finite, or an infinity
      when the literal lies beyond the binary64 range.  An element of the
      [predictions] array is [null] or a value whose fields may be absent
      ([Element]); a field that holds a value of another JSON type than
      the endpoint documents (a string where a number is expected, say)
      is not modelled.  [Prediction.t] is the well-formed element, with
      every field present and every number finite.
    - Strings are byte strings; case mapping acts on the ASCII letters, so
      a statement about the case of letters is about labels in ASCII.
    - Where the language leaves the result of [Array.prototype.sort] to
      the engine (a comparator that throws or is not consistent), the
      result is an input ([engine_sort]); a statement that depends on it
      says what it assumes of it.
    - The reader of a picked file calls [handleCapture] when it is done,
      which can be at any later moment.
    - The array held by [data.predictions] is a mutable object: it lives in
      a one-cell store threaded through the body of [analyzeImage].
    - The network, the clock and the build-time environment are inputs
      ([Env]); [console.error] is an output trace. *)

From Stdlib Require Import QArith Qminmax Qround Lqa ZArith Lia.
From Stdlib Require Import String Ascii List Bool DecimalString.
From Stdlib Require Import Sorting.Sorted Sorting.Permutation.
From Stdlib Require Import Floats.
Import ListNotations.

Local Open Scope Q_scope.

(** ** JavaScript numbers *)

Module JSNumber.

Inductive number : Type :=
| NaN
| PosInf
| NegInf
| Fin (q : Q).

(** The infinity (or [NaN]) selected by the sign of a finite operand. *)
Definition inf_of_sign (c : comparison) : number :=
  match c with
  | Gt => PosInf
  | Lt => NegInf
  | Eq => NaN
  end.

Definition neg (n : number) : number :=
  match n with
  | NaN => NaN
  | PosInf => NegInf
  | NegInf => PosInf
  | Fin q => Fin (- q)
  end.

(** [a + b] *)
Definition add (a b : number) : number :=
  match a, b with
  | NaN, _ | _, NaN => NaN
  | PosInf, NegInf | NegInf, PosInf => NaN
  | PosInf, _ | _, PosInf => PosInf
  | NegInf, _ | _, NegInf => NegInf
  | Fin p, Fin q => Fin (p + q)
  end.

(** [a - b] *)
Definition sub (a b : number) : number :=
  match a, b with
  | NaN, _ | _, NaN => NaN
  | PosInf, PosInf | NegInf, NegInf => NaN
  | PosInf, _ | _, NegInf => PosInf
  | NegInf, _ | _, PosInf => NegInf
  | Fin p, Fin q => Fin (p - q)
  end.

(** [a * b] *)
Definition mul (a b : number) : number :=
  match a, b with
  | NaN, _ | _, NaN => NaN
  | PosInf, PosInf | NegInf, NegInf => PosInf
  | PosInf, NegInf | NegInf, PosInf => NegInf
  | PosInf, Fin q | Fin q, PosInf => inf_of_sign (q ?= 0)
  | NegInf, Fin q | Fin q, NegInf => neg (inf_of_sign (q ?= 0))
  | Fin p, Fin q => Fin (p * q)
  end.

(** [a / b]: a finite non-zero value over zero is an infinity, zero over
    zero is [NaN].  There is one zero here, so the infinity has the sign
    of the dividend; in binary64 the sign of the zero counts too. *)
Definition div (a b : number) : number :=
  match a, b with
  | NaN, _ | _, NaN => NaN
  | (PosInf | NegInf), (PosInf | NegInf) => NaN
  | PosInf, Fin q => match q ?= 0 with Lt => NegInf | _ => PosInf end
  | NegInf, Fin q => match q ?= 0 with Lt => PosInf | _ => NegInf end
  | Fin _, (PosInf | NegInf) => Fin 0
  | Fin p, Fin q =>
      match q ?= 0 with
      | Eq => inf_of_sign (p ?= 0)
      | _ => Fin (p / q)
      end
  end.

(** [Math.max(a, b)] and [Math.min(a, b)]: [NaN] if either is [NaN]. *)
Definition max (a b : number) : number :=
  match a, b with
  | NaN, _ | _, NaN => NaN
  | PosInf, _ | _, PosInf => PosInf
  | NegInf, n | n, NegInf => n
  | Fin p, Fin q => Fin (Qmax p q)
  end.

Definition min (a b : number) : number :=
  match a, b with
  | NaN, _ | _, NaN => NaN
  | NegInf, _ | _, NegInf => NegInf
  | PosInf, n | n, PosInf => n
  | Fin p, Fin q => Fin (Qmin p q)
  end.

(** [a > 0], the test the sort applies to a comparator's result; false
    on [NaN]. *)
Definition gt0 (a : number) : bool :=
  match a with
  | PosInf => true
  | Fin q => match q ?= 0 with Gt => true | _ => false end
  | _ => false
  end.

(** Truthiness: [0] and [NaN] are falsy. *)
Definition truthy (a : number) : bool :=
  match a with
  | NaN => false
  | Fin q => negb (Qeq_bool q 0)
  | _ => true
  end.

(** [v || d] where [v] is a JSON number or [undefined]. *)
Definition or_default (v : option number) (d : number) : number :=
  match v with
  | Some n => if truthy n then n else d
  | None => d
  end.

Definition is_nan (a : number) : bool :=
  match a with NaN => true | _ => false end.

(** Order and equality of numbers as propositions, for statements. *)
Definition le (a b : number) : Prop :=
  match a, b with
  | NaN, _ | _, NaN => False
  | NegInf, _ | _, PosInf => True
  | Fin p, Fin q => p <= q
  | _, _ => False
  end.

Definition eqv (a b : number) : Prop :=
  match a, b with
  | NaN, NaN | PosInf, PosInf | NegInf, NegInf => True
  | Fin p, Fin q => p == q
  | _, _ => False
  end.

(** [Math.round(q)]: the nearest integer, ties towards [+Infinity]. *)
Definition round (q : Q) : Z := Qfloor (q + (1 # 2)).

(** A property read from an object and used as a number: the property is
    absent ([undefined]) or holds a number. *)
Inductive operand : Type :=
| Undefined
| Num (n : number).

Coercion Num : number >-> operand.

(** The number an operand enters arithmetic as: [undefined] is [NaN]. *)
Definition to_number (v : operand) : number :=
  match v with
  | Undefined => NaN
  | Num n => n
  end.

End JSNumber.

Import JSNumber.

(** ** Binary64 values *)

(** The exact arithmetic above is checked against the binary64 one where
    a statement is about one concrete number. *)
Module Binary64.

(** The real number a finite binary64 value stands for. *)
Definition exact (f : float) : option Q :=
  match Prim2SF f with
  | S754_zero _ => Some 0
  | S754_finite s m e =>
      Some ((if s then - inject_Z (Zpos m) else inject_Z (Zpos m)) * 2 ^ e)
  | _ => None
  end.

End Binary64.

(** ** JavaScript strings *)

Module JSString.

Local Open Scope string_scope.

Definition is_upper (c : ascii) : bool :=
  ((nat_of_ascii "A"%char <=? nat_of_ascii c)
   && (nat_of_ascii c <=? nat_of_ascii "Z"%char))%nat.

Definition is_lower (c : ascii) : bool :=
  ((nat_of_ascii "a"%char <=? nat_of_ascii c)
   && (nat_of_ascii c <=? nat_of_ascii "z"%char))%nat.

Definition lower_char (c : ascii) : ascii :=
  if is_upper c then ascii_of_nat (nat_of_ascii c + 32) else c.

Definition upper_char (c : ascii) : ascii :=
  if is_lower c then ascii_of_nat (nat_of_ascii c - 32) else c.

Fixpoint map (f : ascii -> ascii) (s : string) : string :=
  match s with
  | EmptyString => EmptyString
  | String c s' => String (f c) (map f s')
  end.

(** [s.toLowerCase()] and [s.toUpperCase()] on the ASCII letters; the
    other characters are left as they are. *)
Definition toLowerCase : string -> string := map lower_char.
Definition toUpperCase : string -> string := map upper_char.

(** [s.replace(/-/g, ' ')] *)
Definition replace_hyphens : string -> string :=
  map (fun c => if Ascii.eqb c "-"%char then " "%char else c).

(** [s.includes(t)]: [t] occurs in [s] as a contiguous substring. *)
Fixpoint includes (s t : string) : bool :=
  String.prefix t s
  || match s with
     | EmptyString => false
     | String _ s' => includes s' t
     end.

(** The part of [s] before its first [sep], all of [s] if there is none. *)
Fixpoint before (sep : ascii) (s : string) : string :=
  match s with
  | EmptyString => EmptyString
  | String c s' => if Ascii.eqb c sep then EmptyString
                   else String c (before sep s')
  end.

(** The part of [s] after its first [sep], if there is one. *)
Fixpoint after (sep : ascii) (s : string) : option string :=
  match s with
  | EmptyString => None
  | String c s' => if Ascii.eqb c sep then Some s' else after sep s'
  end.

(** [s.split(sep)[1]]: the second field, [undefined] without a
    separator. *)
Definition split_1 (sep : ascii) (s : string) : option string :=
  option_map (before sep) (after sep s).

(** [a || b] on strings: the empty string is falsy. *)
Definition or_else (a b : string) : string :=
  match a with
  | EmptyString => b
  | _ => a
  end.

(** Decimal digits of a natural number. *)
Definition digits (n : N) : string :=
  NilZero.string_of_uint (N.to_uint n).

Fixpoint zeros (n : nat) : string :=
  match n with
  | O => EmptyString
  | S n' => String "0"%char (zeros n')
  end.

Fixpoint strip_trailing_zeros (s : string) : string :=
  match s with
  | EmptyString => EmptyString
  | String c s' =>
      match strip_trailing_zeros s' with
      | EmptyString => if Ascii.eqb c "0"%char then EmptyString
                       else String c EmptyString
      | r => String c r
      end
  end.

(** [String(n)] for a positive integer [n], as Number::toString prints
    it: plain digits up to 21 of them, exponent notation beyond. *)
Definition string_of_positive (p : positive) : string :=
  let d := digits (Npos p) in
  let n := String.length d in
  if (n <=? 21)%nat then d
  else
    match strip_trailing_zeros d with
    | EmptyString => EmptyString
    | String c EmptyString =>
        String c EmptyString ++ "e+" ++ digits (N.of_nat (n - 1))
    | String c rest =>
        String c EmptyString ++ "." ++ rest
          ++ "e+" ++ digits (N.of_nat (n - 1))
    end.

(** [String(z)] for an integer-valued number. *)
Definition string_of_integer (z : Z) : string :=
  match z with
  | Z0 => "0"
  | Zpos p => string_of_positive p
  | Zneg p => "-" ++ string_of_positive p
  end.

(** [x.toFixed(f)] for a non-negative [x] below [10^21]: the integer
    [n] nearest to [x * 10^f] (the larger of two), printed with [f]
    digits after the point. *)
Definition fixed_digits (f : nat) (x : Q) : string :=
  let n := Qfloor (x * inject_Z (10 ^ Z.of_nat f) + (1 # 2)) in
  let m := digits (Z.to_N n) in
  match f with
  | O => m
  | _ =>
      let k := String.length m in
      let m' := if (k <=? f)%nat then zeros (f + 1 - k) ++ m else m in
      let k' := if (k <=? f)%nat then (f + 1)%nat else k in
      substring 0 (k' - f) m' ++ "." ++ substring (k' - f) f m'
  end.

(** [x.toFixed(f)].  From [10^21] on JavaScript prints the number with
    [String(x)] instead; a rational that is not an integer has no such
    finite form, so the result is [None] there. *)
Definition toFixed (f : nat) (x : Q) : option string :=
  let s := if Qlt_le_dec x 0 then "-" else "" in
  let ax := if Qlt_le_dec x 0 then (- x)%Q else x in
  if Qlt_le_dec ax (inject_Z (10 ^ 21)) then Some (s ++ fixed_digits f ax)
  else None.

End JSString.

Import JSString.

(** ** Arrays as mutable objects *)

(** A computation over the one array a variable refers to: it reads or
    updates the array's contents in place and may throw. *)
Module JSArray.

Section Store.
Context {E A : Type}.

Definition M (R : Type) : Type := list A -> (E + R) * list A.

Definition ret {R} (r : R) : M R := fun a => (inr r, a).

Definition throw {R} (e : E) : M R := fun a => (inl e, a).

Definition bind {R S} (m : M R) (k : R -> M S) : M S :=
  fun a =>
    match m a with
    | (inl e, a') => (inl e, a')
    | (inr r, a') => k r a'
    end.

(** [arr.length] *)
Definition length : M nat := fun a => (inr (List.length a), a).

(** [arr[i]], [undefined] out of range. *)
Definition get (i : nat) : M (option A) :=
  fun a => (inr (nth_error a i), a).

(** [arr.map(f)]: a fresh array, [arr] is left as it is. *)
Definition map {B} (f : A -> B) : M (list B) :=
  fun a => (inr (List.map f a), a).

(** Insertion of [v] in front of a sorted run: [v] moves behind [w]
    only when [cmp v w > 0], so equal elements keep their order. *)
Fixpoint insert (cmp : A -> A -> number) (v : A) (l : list A) : list A :=
  match l with
  | [] => [v]
  | w :: l' => if gt0 (cmp v w) then w :: insert cmp v l'
               else v :: w :: l'
  end.

Fixpoint sorted_by (cmp : A -> A -> number) (l : list A) : list A :=
  match l with
  | [] => []
  | v :: l' => insert cmp v (sorted_by cmp l')
  end.

(** [arr.sort(cmp)]: the stable sort, written into [arr] itself; the
    value of the call is [arr] again. *)
Definition sort (cmp : A -> A -> number) : M unit :=
  fun a => (inr tt, sorted_by cmp a).

(** The value of a computation started on the array [a]. *)
Definition run {R} (m : M R) (a : list A) : E + R := fst (m a).
End Store.

Arguments M : clear implicits.

End JSArray.

Declare Scope js_scope.
Delimit Scope js_scope with js.
Notation "x <- m ;; k" := (JSArray.bind m (fun x => k))
  (at level 61, m at next level, right associativity) : js_scope.
Notation "m ;;; k" := (JSArray.bind m (fun _ => k))
  (at level 61, right associativity) : js_scope.

(** ** Types of [App.tsx] *)

Local Open Scope string_scope.

Record BoundingBox : Type := {
  ymin : number;
  xmin : number;
  ymax : number;
  xmax : number
}.

(** ['Safe' | 'Contaminated' | 'Inconclusive' | 'No Fish Detected'] *)
Inductive Status : Type :=
| Safe
| Contaminated
| Inconclusive
| NoFishDetected.

Definition status_text (s : Status) : string :=
  match s with
  | Safe => "Safe"
  | Contaminated => "Contaminated"
  | Inconclusive => "Inconclusive"
  | NoFishDetected => "No Fish Detected"
  end.

Definition is_Safe (s : Status) : bool :=
  match s with Safe => true | _ => false end.

Record DetectionResult : Type := {
  status : Status;
  confidence : operand;
  description : string;
  guidance : string;
  timestamp : string;
  image : string;
  location : option string;
  primarySymptom : option string;
  boundingBoxes : option (list BoundingBox)
}.

Inductive DetectionStatus : Type :=
| IDLE
| ANALYZING
| SUCCESS
| ERROR.

(** A well-formed entry of the [predictions] array of the inference
    response: every field is present, [class] is a string and the
    numbers are finite. *)
Module Prediction.
Record t : Type := {
  x : Q;
  y : Q;
  width : Q;
  height : Q;
  class : string;
  confidence : Q
}.
End Prediction.

(** The [class] property of an element as [analyzeImage] uses it: the
    receiver of [toLowerCase()].  It is absent or [null], or a value
    that is not a string (and so has no such method), or a string. *)
Inductive ClassField : Type :=
| NoClass
| NotAString
| Label (s : string).

(** An element of the [predictions] array as the body gives it: [null],
    or a value with the six properties [analyzeImage] reads, each of the
    numeric ones absent or a number.  A value that is not an object has
    none of the properties. *)
Inductive Element : Type :=
| Null
| Object (x y width height : operand) (class : ClassField)
    (confidence : operand).

(** The element a well-formed prediction is. *)
Definition element_of (p : Prediction.t) : Element :=
  Object (Fin (Prediction.x p)) (Fin (Prediction.y p))
    (Fin (Prediction.width p)) (Fin (Prediction.height p))
    (Label (Prediction.class p)) (Fin (Prediction.confidence p)).

(** The [image] object of the response; a field may be missing. *)
Module Image.
Record t : Type := {
  width : option number;
  height : option number
}.
End Image.

(** What [data.predictions] can hold: nothing or a falsy value, a truthy
    value that is not an array, an array of well-formed predictions, or
    an array of any elements. *)
Inductive PredictionsField : Type :=
| Absent
| NotAnArray
| Array (ps : list Prediction.t)
| Entries (es : list Element).

(** The fields [analyzeImage] reads from the parsed body. *)
Module Data.
Record t : Type := {
  predictions : PredictionsField;
  image : option Image.t
}.
End Data.

Record JSError : Type := {
  name : string;
  message : string
}.

(** [new Error(msg)] *)
Definition Error (msg : string) : JSError :=
  {| name := "Error"; message := msg |}.

(** Faults the engine turns into a [TypeError] of its own wording. *)
Inductive Fault : Type :=
| ReadOfNullish
| NotAFunction.

(** [response.json()]: it rejects on a body that is not JSON, and
    otherwise resolves to [null] or to a value whose fields can be read. *)
Inductive Body : Type :=
| BodyRejects (e : JSError)
| BodyNull
| BodyValue (data : Data.t).

Record Response : Type := {
  ok : bool;
  statusText : string;
  json : Body
}.

Inductive FetchOutcome : Type :=
| Rejects (e : JSError)
| Resolves (response : Response).

Record Request : Type := {
  url : string;
  method : string;
  body : option string;
  contentType : string
}.

(** The surroundings of the program: the API key the module constant
    [ROBOFLOW_API_KEY] resolved to, the network, the formatted current
    time, the engine's error objects and what the engine's
    [Array.prototype.sort] does where the language leaves it open (a
    comparator that throws or is not consistent on the array): it throws
    or leaves some array behind. *)
Record Env : Type := {
  ROBOFLOW_API_KEY : string;
  fetch : Request -> FetchOutcome;
  now : string;
  engine : Fault -> JSError;
  engine_sort : list Element -> JSError + list Element
}.

(** One call of [console.error(label, error)]. *)
Definition Console : Type := list (string * JSError).

Definition MODEL_ENDPOINT : string := "https://detect.roboflow.com/liya-y6tnm/11".

(** ** Helper functions *)

(** [normalizeCoordinates(pred, imgWidth, imgHeight)] on a well-formed
    prediction, in exact arithmetic. *)
Definition normalizeCoordinates
    (pred : Prediction.t) (imgWidth imgHeight : number) : BoundingBox :=
  let px := Fin (Prediction.x pred) in
  let py := Fin (Prediction.y pred) in
  let pw := Fin (Prediction.width pred) in
  let ph := Fin (Prediction.height pred) in
  let xmin := mul (div (sub px (div pw (Fin 2))) imgWidth) (Fin 1000) in
  let xmax := mul (div (add px (div pw (Fin 2))) imgWidth) (Fin 1000) in
  let ymin := mul (div (sub py (div ph (Fin 2))) imgHeight) (Fin 1000) in
  let ymax := mul (div (add py (div ph (Fin 2))) imgHeight) (Fin 1000) in
  {| ymin := max (Fin 0) (min (Fin 1000) ymin);
     xmin := max (Fin 0) (min (Fin 1000) xmin);
     ymax := max (Fin 0) (min (Fin 1000) ymax);
     xmax := max (Fin 0) (min (Fin 1000) xmax) |}.

(** [normalizeCoordinates] on the properties of an element, which may be
    absent or infinite. *)
Definition normalizeElement
    (x y width height : operand) (imgWidth imgHeight : number)
    : BoundingBox :=
  let px := to_number x in
  let py := to_number y in
  let pw := to_number width in
  let ph := to_number height in
  let xmin := mul (div (sub px (div pw (Fin 2))) imgWidth) (Fin 1000) in
  let xmax := mul (div (add px (div pw (Fin 2))) imgWidth) (Fin 1000) in
  let ymin := mul (div (sub py (div ph (Fin 2))) imgHeight) (Fin 1000) in
  let ymax := mul (div (add py (div ph (Fin 2))) imgHeight) (Fin 1000) in
  {| ymin := max (Fin 0) (min (Fin 1000) ymin);
     xmin := max (Fin 0) (min (Fin 1000) xmin);
     ymax := max (Fin 0) (min (Fin 1000) ymax);
     xmax := max (Fin 0) (min (Fin 1000) xmax) |}.

(** The comparator [(a, b) => b.confidence - a.confidence]. *)
Definition by_confidence (a b : Prediction.t) : number :=
  sub (Fin (Prediction.confidence b)) (Fin (Prediction.confidence a)).

(** [`${Math.round(c * 100)}`], on the exact product.  The binary64
    product can lie on the other side of a tie: [0.285 * 100] is
    [28.499999999999996] there and rounds to 28. *)
Definition percent (c : Q) : string :=
  string_of_integer (round (c * 100)).

Definition safe_description (b : Prediction.t) : string :=
  "The AI model identified the sample as " ++ Prediction.class b
    ++ " with " ++ percent (Prediction.confidence b)
    ++ "% confidence. No HAB indicators were found.".

Definition contaminated_description (b : Prediction.t) : string :=
  "Your custom model detected " ++ Prediction.class b
    ++ " with " ++ percent (Prediction.confidence b)
    ++ "% certainty. This indicates a high risk of HAB contamination.".

(** [`${Math.round(c * 100)}`] on a property that may be absent or
    infinite. *)
Definition percent_of (c : operand) : string :=
  match mul (to_number c) (Fin 100) with
  | NaN => "NaN"
  | PosInf => "Infinity"
  | NegInf => "-Infinity"
  | Fin q => string_of_integer (round q)
  end.

(** The two templates of the description, on a label and a percentage. *)
Definition safe_text (label pct : string) : string :=
  "The AI model identified the sample as " ++ label
    ++ " with " ++ pct
    ++ "% confidence. No HAB indicators were found.".

Definition contaminated_text (label pct : string) : string :=
  "Your custom model detected " ++ label
    ++ " with " ++ pct
    ++ "% certainty. This indicates a high risk of HAB contamination.".

(** The number the comparator reads from an object. *)
Definition confidence_of (e : Element) : number :=
  match e with
  | Null => NaN
  | Object _ _ _ _ _ c => to_number c
  end.

(** The comparator on two objects; on [null] it throws. *)
Definition by_confidence_of (a b : Element) : number :=
  sub (confidence_of b) (confidence_of a).

(** An element the comparator orders consistently: an object whose
    confidence is a number other than [NaN]. *)
Definition comparable (e : Element) : bool :=
  match e with
  | Null => false
  | Object _ _ _ _ _ c => negb (is_nan (to_number c))
  end.

Definition no_fish_description : string :=
  "No fish or HAB indicators were detected in the frame. Please ensure the sample is centered and well-lit.".

Definition safe_guidance : string :=
  "Sample appears normal. However, always stay updated with the latest BFAR Red Tide Bulletins before consumption.".

Definition contaminated_guidance : string :=
  "DO NOT CONSUME. Report this sample to the nearest BFAR or LLDA station immediately.".

Definition no_fish_guidance : string :=
  "Please try scanning again. Position the fish clearly in the center of the frame.".

Definition detection_failed : string :=
  "Detection failed. Please check your Roboflow API configuration.".

(** [data.image?.width || 1] and [data.image?.height || 1] *)
Definition imgWidth (data : Data.t) : number :=
  or_default (match Data.image data with
              | Some i => Image.width i
              | None => None
              end) (Fin 1).

Definition imgHeight (data : Data.t) : number :=
  or_default (match Data.image data with
              | Some i => Image.height i
              | None => None
              end) (Fin 1).

Section AnalyzeImage.
Variable env : Env.
Variable base64Image : string.

Local Open Scope js_scope.

Let M := JSArray.M JSError Prediction.t.

(** Reading a property of [v]: a [TypeError] when [v] is [null] or
    [undefined]. *)
Definition deref {R} (v : option R) : JSArray.M JSError Prediction.t R :=
  match v with
  | Some r => JSArray.ret r
  | None => JSArray.throw (engine env ReadOfNullish)
  end.

(** Lines 100-130 of [analyzeImage]: the verdict, computed over the
    array [predictions] refers to. *)
Definition verdict (imgWidth imgHeight : number) : M DetectionResult :=
  n <- JSArray.length ;;
  let hasDetections := (0 <? n)%nat in
  bestPred <- (if hasDetections
               then JSArray.sort by_confidence ;;; JSArray.get 0
               else JSArray.ret None) ;;
  status <- (if hasDetections
             then b <- deref bestPred ;;
                  let className := toLowerCase (Prediction.class b) in
                  JSArray.ret (if includes className "healthy"
                               then Safe else Contaminated)
             else JSArray.ret NoFishDetected) ;;
  description <- (if hasDetections
                  then b <- deref bestPred ;;
                       JSArray.ret (if is_Safe status
                                    then safe_description b
                                    else contaminated_description b)
                  else JSArray.ret no_fish_description) ;;
  boxes <- JSArray.map
             (fun p => normalizeCoordinates p imgWidth imgHeight) ;;
  JSArray.ret
    {| status := status;
       confidence := match bestPred with
                     | Some b => Fin (Prediction.confidence b)
                     | None => Fin 0
                     end;
       location := Some "Binangonan, Rizal";
       primarySymptom :=
         Some match bestPred with
              | Some b =>
                  toUpperCase (replace_hyphens (Prediction.class b))
              | None => "NONE"
              end;
       description := description;
       guidance := if hasDetections
                   then if is_Safe status then safe_guidance
                        else contaminated_guidance
                   else no_fish_guidance;
       boundingBoxes := Some boxes;
       timestamp := now env;
       image := base64Image |}.

(** [predictions.sort(...)] on an array of any elements.  Up to one
    element nothing is compared; on comparable elements the comparator
    is consistent and the result is the stable sort; otherwise the engine
    decides. *)
Definition sorted_elements (es : list Element) : JSError + list Element :=
  match es with
  | [] | [_] => inr es
  | _ =>
      if forallb comparable es
      then inr (JSArray.sorted_by by_confidence_of es)
      else engine_sort env es
  end.

Definition sort_elements : JSArray.M JSError Element unit :=
  fun a =>
    match sorted_elements a with
    | inl e => (inl e, a)
    | inr a' => (inr tt, a')
    end.

(** [bestPred.class] as the receiver of a string method. *)
Definition label_of (v : option Element) : JSArray.M JSError Element string :=
  match v with
  | None | Some Null | Some (Object _ _ _ _ NoClass _) =>
      JSArray.throw (engine env ReadOfNullish)
  | Some (Object _ _ _ _ NotAString _) =>
      JSArray.throw (engine env NotAFunction)
  | Some (Object _ _ _ _ (Label s) _) => JSArray.ret s
  end.

(** [predictions.map((p) => normalizeCoordinates(p, ...))]: reading a
    property of a [null] element throws. *)
Fixpoint boxes_of (imgWidth imgHeight : number) (es : list Element)
    : JSError + list BoundingBox :=
  match es with
  | [] => inr []
  | Null :: _ => inl (engine env ReadOfNullish)
  | Object x y w h _ _ :: es' =>
      match boxes_of imgWidth imgHeight es' with
      | inl e => inl e
      | inr boxes =>
          inr (normalizeElement x y w h imgWidth imgHeight :: boxes)
      end
  end.

Definition map_elements (imgWidth imgHeight : number)
    : JSArray.M JSError Element (list BoundingBox) :=
  fun a => (boxes_of imgWidth imgHeight a, a).

(** Lines 100-130 of [analyzeImage] over an array of any elements. *)
Definition verdict_of_elements (imgWidth imgHeight : number)
    : JSArray.M JSError Element DetectionResult :=
  n <- JSArray.length ;;
  let hasDetections := (0 <? n)%nat in
  bestPred <- (if hasDetections
               then sort_elements ;;; JSArray.get 0
               else JSArray.ret None) ;;
  status <- (if hasDetections
             then label <- label_of bestPred ;;
                  let className := toLowerCase label in
                  JSArray.ret (if includes className "healthy"
                               then Safe else Contaminated)
             else JSArray.ret NoFishDetected) ;;
  symptom <- (match bestPred with
              | Some (Object _ _ _ _ _ _) =>
                  label <- label_of bestPred ;;
                  JSArray.ret (toUpperCase (replace_hyphens label))
              | _ => JSArray.ret "NONE"
              end) ;;
  description <- (if hasDetections
                  then label <- label_of bestPred ;;
                       let pct :=
                         percent_of match bestPred with
                                    | Some (Object _ _ _ _ _ c) => c
                                    | _ => Undefined
                                    end in
                       JSArray.ret (if is_Safe status
                                    then safe_text label pct
                                    else contaminated_text label pct)
                  else JSArray.ret no_fish_description) ;;
  boxes <- map_elements imgWidth imgHeight ;;
  JSArray.ret
    {| status := status;
       confidence := match bestPred with
                     | Some (Object _ _ _ _ _ c) => c
                     | _ => Num (Fin 0)
                     end;
       location := Some "Binangonan, Rizal";
       primarySymptom := Some symptom;
       description := description;
       guidance := if hasDetections
                   then if is_Safe status then safe_guidance
                        else contaminated_guidance
                   else no_fish_guidance;
       boundingBoxes := Some boxes;
       timestamp := now env;
       image := base64Image |}.

Definition request : Request :=
  {| url := MODEL_ENDPOINT ++ "?api_key=" ++ ROBOFLOW_API_KEY env
              ++ "&confidence=25";
     method := "POST";
     body := if includes base64Image ","
             then split_1 ","%char base64Image
             else Some base64Image;
     contentType := "application/x-www-form-urlencoded" |}.

(** The body of the [try] block: the verdict, or what was thrown. *)
Definition attempt : JSError + DetectionResult :=
  match fetch env request with
  | Rejects e => inl e
  | Resolves response =>
      if negb (ok response)
      then inl (Error ("Roboflow API error: " ++ statusText response))
      else
        match json response with
        | BodyRejects e => inl e
        | BodyNull => inl (engine env ReadOfNullish)
        | BodyValue data =>
            match Data.predictions data with
            | Absent =>
                JSArray.run (verdict (imgWidth data) (imgHeight data)) []
            | NotAnArray => inl (engine env NotAFunction)
            | Array ps =>
                JSArray.run (verdict (imgWidth data) (imgHeight data)) ps
            | Entries es =>
                JSArray.run
                  (verdict_of_elements (imgWidth data) (imgHeight data)) es
            end
        end
  end.

(** [analyzeImage(base64Image)]: what it wrote to the console and how
    its promise settled. *)
Definition analyzeImage : Console * (JSError + DetectionResult) :=
  match attempt with
  | inr r => ([], inr r)
  | inl error =>
      ([("Roboflow Inference failed:", error)],
       inl (Error detection_failed))
  end.
End AnalyzeImage.

(** ** Result display and report *)

(** [(c * 100).toFixed(1)], on the exact product; [None] where
    [toFixed] has no finite form, from [10^21] on. *)
Definition percent_1 (c : number) : option string :=
  match mul c (Fin 100) with
  | NaN => Some "NaN"
  | PosInf => Some "Infinity"
  | NegInf => Some "-Infinity"
  | Fin q => toFixed 1 q
  end.

(** The confidence line of [ResultDisplay]. *)
Definition confidence_label (result : DetectionResult) : option string :=
  option_map (fun s => s ++ "%")
    (percent_1 (to_number (confidence result))).

(** [getZoomStyle()]: the two percentages of [transformOrigin]. *)
Definition getZoomStyle (result : DetectionResult) : number * number :=
  match status result, boundingBoxes result with
  | NoFishDetected, _ | _, None | _, Some [] => (Fin 50, Fin 50)
  | _, Some (box :: _) =>
      (div (add (xmin box) (xmax box)) (Fin 20),
       div (add (ymin box) (ymax box)) (Fin 20))
  end.

Definition nl : string := String (ascii_of_nat 10) EmptyString.

(** [`${v}`] of an optional string field. *)
Definition show (v : option string) : string :=
  match v with
  | Some s => s
  | None => "undefined"
  end.

(** The text of the report, [reportContent] in [downloadReport]. *)
Definition reportContent (result : DetectionResult) : option string :=
  option_map
    (fun pct =>
       "LIYA - HAB DETECTION REPORT" ++ nl
         ++ "==========================" ++ nl
         ++ "Date/Time: " ++ timestamp result ++ nl
         ++ "Location: " ++ show (location result) ++ nl
         ++ "Overall Status: " ++ status_text (status result) ++ nl
         ++ "Confidence: " ++ pct ++ "%" ++ nl ++ nl
         ++ "INDICATORS DETECTED:" ++ nl
         ++ "- Primary Indicator: " ++ show (primarySymptom result) ++ nl
         ++ "- Description: " ++ description result ++ nl ++ nl
         ++ "GUIDANCE:" ++ nl
         ++ "- " ++ guidance result ++ nl ++ nl
         ++ "CONTACTS:" ++ nl
         ++ "- LLDA: (02) 8376-4039" ++ nl
         ++ "- BFAR: (049) 536-8200" ++ nl
         ++ "==========================")
    (percent_1 (to_number (confidence result))).

(** ** The application *)

Module App.

Record State : Type := {
  status : DetectionStatus;
  result : option DetectionResult;
  error : option string;
  lastImg : option string;
  isFlashOn : bool
}.

(** The values the [useState] hooks start from. *)
Definition initial : State :=
  {| status := IDLE; result := None; error := None;
     lastImg := None; isFlashOn := false |}.

Definition setStatus (v : DetectionStatus) (s : State) : State :=
  {| status := v; result := result s; error := error s;
     lastImg := lastImg s; isFlashOn := isFlashOn s |}.

Definition setResult (v : option DetectionResult) (s : State) : State :=
  {| status := status s; result := v; error := error s;
     lastImg := lastImg s; isFlashOn := isFlashOn s |}.

Definition setError (v : option string) (s : State) : State :=
  {| status := status s; result := result s; error := v;
     lastImg := lastImg s; isFlashOn := isFlashOn s |}.

Definition setLastImg (v : option string) (s : State) : State :=
  {| status := status s; result := result s; error := error s;
     lastImg := v; isFlashOn := isFlashOn s |}.

(** [handleCapture] up to its [await]. *)
Definition handleCapture_begin (imageData : string) (s : State) : State :=
  setError None (setStatus ANALYZING (setLastImg (Some imageData) s)).

(** [handleCapture] from the moment the promise of [analyzeImage]
    settles. *)
Definition handleCapture_settle
    (settled : JSError + DetectionResult) (s : State) : State :=
  match settled with
  | inr analysisResult =>
      setStatus SUCCESS (setResult (Some analysisResult) s)
  | inl err =>
      setStatus ERROR
        (setError
           (Some (or_else (message err)
                    "An unexpected error occurred during analysis."))
           s)
  end.

Definition handleCapture
    (env : Env) (imageData : string) (s : State) : State :=
  handleCapture_settle (snd (analyzeImage env imageData))
    (handleCapture_begin imageData s).

Definition resetDetection (s : State) : State :=
  setError None (setStatus IDLE (setResult None s)).

(** [downloadReport]: nothing without a result, else the report text
    offered as a download. *)
Definition downloadReport (s : State) : option (option string) :=
  option_map reportContent (result s).

End App.

(** ** The screen and its controls *)

(** What [App] renders: the result display when a result is stored, else
    the camera view with the error banner when an error is stored. *)
Inductive Screen : Type :=
| ResultScreen (result : DetectionResult)
| CameraScreen (banner : option string).

Definition screen (s : App.State) : Screen :=
  match App.result s with
  | Some r => ResultScreen r
  | None => CameraScreen (App.error s)
  end.

(** [setIsFlashOn(!isFlashOn)] *)
Definition toggleFlash (s : App.State) : App.State :=
  {| App.status := App.status s; App.result := App.result s;
     App.error := App.error s; App.lastImg := App.lastImg s;
     App.isFlashOn := negb (App.isFlashOn s) |}.

(** What can happen to the running application: the shutter button
    delivers a frame; the reader of a file chosen in the file input
    finishes and its [onload] delivers the file; the promise of a call of
    [analyzeImage] in flight settles; a reset button or the flash button
    is pressed. *)
Inductive Event : Type :=
| Shutter (imageData : string)
| FilePicked (imageData : string)
| Settled (i : nat)
| ScanAgain
| FlashToggled.

(** The application state and the images whose analysis is in flight,
    the latest first. *)
Record World : Type := {
  app : App.State;
  inFlight : list string
}.

Definition start : World := {| app := App.initial; inFlight := [] |}.

Definition is_ANALYZING (d : DetectionStatus) : bool :=
  match d with ANALYZING => true | _ => false end.

(** The effect of an event, [None] when the control it comes from is not
    on the screen or is disabled.  The camera view is rendered while no
    result is stored; its shutter button is disabled while the status is
    [ANALYZING], its file input is not.  A file is read in the
    background: it can have been chosen at any earlier moment the camera
    view was on the screen, the first moment included, so its [onload]
    can come at any time, also behind the result display.  The reset
    buttons belong to the result display, the flash button to the header
    of the camera view. *)
Definition fire (env : Env) (e : Event) (w : World) : option World :=
  match e, screen (app w) with
  | Shutter imageData, CameraScreen _ =>
      if is_ANALYZING (App.status (app w)) then None
      else Some {| app := App.handleCapture_begin imageData (app w);
                   inFlight := imageData :: inFlight w |}
  | FilePicked imageData, _ =>
      Some {| app := App.handleCapture_begin imageData (app w);
              inFlight := imageData :: inFlight w |}
  | Settled i, _ =>
      match nth_error (inFlight w) i with
      | Some imageData =>
          Some {| app := App.handleCapture_settle
                           (snd (analyzeImage env imageData)) (app w);
                  inFlight := firstn i (inFlight w)
                              ++ skipn (S i) (inFlight w) |}
      | None => None
      end
  | ScanAgain, ResultScreen _ =>
      Some {| app := App.resetDetection (app w); inFlight := inFlight w |}
  | FlashToggled, CameraScreen _ =>
      Some {| app := toggleFlash (app w); inFlight := inFlight w |}
  | _, _ => None
  end.

Fixpoint fire_all (env : Env) (es : list Event) (w : World)
    : option World :=
  match es with
  | [] => Some w
  | e :: es' =>
      match fire env e w with
      | Some w' => fire_all env es' w'
      | None => None
      end
  end.

Definition is_FilePicked (e : Event) : bool :=
  match e with FilePicked _ => true | _ => false end.

(** * Vocabulary of the statements *)

Local Open Scope list_scope.
Local Open Scope Q_scope.

(** The characters [c] and [l] are the same letter in either case: they
    are equal, or one is a small letter of the ASCII alphabet (codes 97
    to 122) or a capital one (codes 65 to 90) and the other is its
    counterpart, 32 codes apart. *)
Definition same_letter (c l : ascii) : Prop :=
  c = l
  \/ ((97 <= nat_of_ascii l <= 122)%nat
      /\ nat_of_ascii l = (nat_of_ascii c + 32)%nat)
  \/ ((65 <= nat_of_ascii l <= 90)%nat
      /\ nat_of_ascii c = (nat_of_ascii l + 32)%nat).

(** [same_letter], decided. *)
Definition same_letter_b (c l : ascii) : bool :=
  Ascii.eqb c l
  || ((97 <=? nat_of_ascii l)%nat && (nat_of_ascii l <=? 122)%nat
      && (nat_of_ascii l =? nat_of_ascii c + 32)%nat)
  || ((65 <=? nat_of_ascii l)%nat && (nat_of_ascii l <=? 90)%nat
      && (nat_of_ascii c =? nat_of_ascii l + 32)%nat).

(** The 256 characters. *)
Definition all_chars : list ascii := List.map ascii_of_nat (seq 0 256).

(** Two strings that differ at most in the case of their letters. *)
Fixpoint eq_ignoring_case (s t : string) : Prop :=
  match s, t with
  | EmptyString, EmptyString => True
  | String c s', String l t' => same_letter c l /\ eq_ignoring_case s' t'
  | _, _ => False
  end.

(** [needle] occurs in [hay] up to the case of its letters. *)
Definition contains_ignoring_case (hay needle : string) : Prop :=
  exists pre mid post,
    hay = (pre ++ mid ++ post)%string /\ eq_ignoring_case mid needle.

(** A list of predictions in non-increasing order of confidence. *)
Definition descending : list Prediction.t -> Prop :=
  StronglySorted (fun a b => Prediction.confidence b <= Prediction.confidence a).

(** [Math.max(0, Math.min(1000, v))] on a finite [v]. *)
Definition clamp (v : Q) : Q := Qmax 0 (Qmin 1000 v).

(** A bound that is a number within [0, 1000]. *)
Definition in_range (n : number) : Prop :=
  le (Fin 0) n /\ le n (Fin 1000).

Definition box_in_range (b : BoundingBox) : Prop :=
  in_range (ymin b) /\ in_range (xmin b)
  /\ in_range (ymax b) /\ in_range (xmax b).

(** The lower bounds of a box do not exceed its upper bounds. *)
Definition box_ordered (b : BoundingBox) : Prop :=
  le (ymin b) (ymax b) /\ le (xmin b) (xmax b).

Definition box_has_no_nan (b : BoundingBox) : Prop :=
  is_nan (ymin b) = false /\ is_nan (xmin b) = false
  /\ is_nan (ymax b) = false /\ is_nan (xmax b) = false.

(** An image dimension that the response gives as zero. *)
Definition is_zero (v : option number) : Prop :=
  exists q, v = Some (Fin q) /\ q == 0.

(** An image dimension that is absent or a finite number. *)
Definition finite_dim (v : option number) : Prop :=
  match v with
  | None | Some (Fin _) => True
  | Some _ => False
  end.

(** The image dimensions as the response gives them. *)
Definition width_of (data : Data.t) : option number :=
  match Data.image data with
  | Some i => Image.width i
  | None => None
  end.

Definition height_of (data : Data.t) : option number :=
  match Data.image data with
  | Some i => Image.height i
  | None => None
  end.

(** The endpoint answers the request for [img] with a success status and
    a body that parses to [data]. *)
Definition answers (env : Env) (img : string) (data : Data.t) : Prop :=
  exists response,
    fetch env (request env img) = Resolves response
    /\ ok response = true
    /\ json response = BodyValue data.

(** The verdict built when nothing was detected. *)
Definition no_fish_verdict (env : Env) (img : string) : DetectionResult :=
  {| status := NoFishDetected;
     confidence := Fin 0;
     location := Some "Binangonan, Rizal"%string;
     primarySymptom := Some "NONE"%string;
     description := no_fish_description;
     guidance := no_fish_guidance;
     boundingBoxes := Some [];
     timestamp := now env;
     image := img |}.

(** The status a best prediction [b] gives. *)
Definition verdict_status (b : Prediction.t) : Status :=
  if includes (toLowerCase (Prediction.class b)) "healthy"
  then Safe else Contaminated.

(** The verdict built when the sorted array is [b :: rest]. *)
Definition detection_verdict
    (env : Env) (img : string) (W H : number) (b : Prediction.t) (rest : list Prediction.t)
    : DetectionResult :=
  {| status := verdict_status b;
     confidence := Fin (Prediction.confidence b);
     location := Some "Binangonan, Rizal"%string;
     primarySymptom :=
       Some (toUpperCase (replace_hyphens (Prediction.class b)));
     description := if is_Safe (verdict_status b)
                    then safe_description b
                    else contaminated_description b;
     guidance := if is_Safe (verdict_status b)
                 then safe_guidance else contaminated_guidance;
     boundingBoxes :=
       Some (List.map (fun p => normalizeCoordinates p W H) (b :: rest));
     timestamp := now env;
     image := img |}.

(** The status a label gives. *)
Definition status_of_label (label : string) : Status :=
  if includes (toLowerCase label) "healthy" then Safe else Contaminated.

(** The verdict built when the element in front of the array after the
    sort has the label [label] and the confidence property [c], and the
    elements give the boxes [boxes]. *)
Definition element_verdict
    (env : Env) (img : string) (label : string) (c : operand)
    (boxes : list BoundingBox) : DetectionResult :=
  {| status := status_of_label label;
     confidence := c;
     location := Some "Binangonan, Rizal"%string;
     primarySymptom := Some (toUpperCase (replace_hyphens label));
     description := if is_Safe (status_of_label label)
                    then safe_text label (percent_of c)
                    else contaminated_text label (percent_of c);
     guidance := if is_Safe (status_of_label label)
                 then safe_guidance else contaminated_guidance;
     boundingBoxes := Some boxes;
     timestamp := now env;
     image := img |}.

(** An element all of whose four coordinates are finite numbers. *)
Definition finite_box (e : Element) : Prop :=
  match e with
  | Object (Num (Fin _)) (Num (Fin _)) (Num (Fin _)) (Num (Fin _)) _ _ =>
      True
  | _ => False
  end.


(** Where the engine's sort returns, the array holds the elements it
    held before, in some order. *)
Definition sort_permutes (env : Env) : Prop :=
  forall es es', engine_sort env es = inr es' -> Permutation es es'.

(** The array [predictions] refers to when the body gives one: the
    empty array stands in for a missing field. *)
Definition elements_of (data : Data.t) : option (list Element) :=
  match Data.predictions data with
  | Absent => Some []
  | NotAnArray => None
  | Array ps => Some (List.map element_of ps)
  | Entries es => Some es
  end.

(** A percentage between 0 and 100. *)
Definition in_percent (n : number) : Prop :=
  le (Fin 0) n /\ le n (Fin 100).

(** The stored fields agree with the status, whatever is in flight. *)
Definition consistent (env : Env) (w : World) : Prop :=
  (App.status (app w) = IDLE ->
   App.result (app w) = None /\ App.error (app w) = None)
  /\ (App.status (app w) = ANALYZING ->
      App.error (app w) = None /\ inFlight w <> [])
  /\ (App.status (app w) = SUCCESS -> App.result (app w) <> None)
  /\ (App.status (app w) = ERROR ->
      App.error (app w) = Some detection_failed)
  /\ (forall m, App.error (app w) = Some m -> m = detection_failed)
  /\ (forall v, App.result (app w) = Some v ->
        exists imageData, snd (analyzeImage env imageData) = inr v).

(** The states of the sequential state machine: at most one analysis in
    flight, and each stored field present exactly in its own status. *)
Definition sequential (w : World) : Prop :=
  (List.length (inFlight w) <= 1)%nat
  /\ (inFlight w <> [] <-> App.status (app w) = ANALYZING)
  /\ (App.result (app w) <> None <-> App.status (app w) = SUCCESS)
  /\ (App.error (app w) <> None <-> App.status (app w) = ERROR).

(** Two settled analyses that differ at most in the image they carry. *)
Definition same_analysis (r1 r2 : JSError + DetectionResult) : Prop :=
  match r1, r2 with
  | inl e1, inl e2 => e1 = e2
  | inr v1, inr v2 =>
      status v1 = status v2
      /\ confidence v1 = confidence v2
      /\ description v1 = description v2
      /\ guidance v1 = guidance v2
      /\ timestamp v1 = timestamp v2
      /\ location v1 = location v2
      /\ primarySymptom v1 = primarySymptom v2
      /\ boundingBoxes v1 = boundingBoxes v2
  | _, _ => False
  end.

(** ** Sample inputs *)

(** An environment whose endpoint settles every request the same way. *)
Definition sample_env (outcome : FetchOutcome) : Env :=
  {| ROBOFLOW_API_KEY := "sample-key"%string;
     fetch := fun _ => outcome;
     now := "11/02/26, 9:41 AM"%string;
     engine := fun f =>
       {| name := "TypeError"%string;
          message := match f with
                     | ReadOfNullish => "Cannot read properties of null"
                     | NotAFunction => "predictions.map is not a function"
                     end%string |};
     engine_sort := fun es => inr es |}.

(** A response with status 200 whose body parses to [data]. *)
Definition success (data : Data.t) : FetchOutcome :=
  Resolves {| ok := true; statusText := "OK"%string;
              json := BodyValue data |}.

(** A response with a failure status. *)
Definition failure (text : string) : FetchOutcome :=
  Resolves {| ok := false; statusText := text;
              json := BodyRejects (Error "Unexpected token"%string) |}.

Definition healthy_fish : Prediction.t :=
  {| Prediction.x := 100; Prediction.y := 120;
     Prediction.width := 60; Prediction.height := 40;
     Prediction.class := "healthy-fish"%string;
     Prediction.confidence := 0.9 |}.

Definition lesion : Prediction.t :=
  {| Prediction.x := 320; Prediction.y := 240;
     Prediction.width := 120; Prediction.height := 80;
     Prediction.class := "lesion"%string;
     Prediction.confidence := 0.95 |}.

(** A prediction at the confidence 0.823. *)
Definition faint : Prediction.t :=
  {| Prediction.x := 200; Prediction.y := 150;
     Prediction.width := 90; Prediction.height := 70;
     Prediction.class := "red-gills"%string;
     Prediction.confidence := 0.823 |}.

(** A prediction whose width is negative. *)
Definition inverted : Prediction.t :=
  {| Prediction.x := 50; Prediction.y := 50;
     Prediction.width := -20; Prediction.height := 20;
     Prediction.class := "lesion"%string;
     Prediction.confidence := 0.9 |}.

Definition sample_data (ps : PredictionsField) (w h : option Q) : Data.t :=
  {| Data.predictions := ps;
     Data.image := Some {| Image.width := option_map Fin w;
                           Image.height := option_map Fin h |} |}.

(** An element with nothing but a label: [{"class": "lesion"}]. *)
Definition bare_label : Element :=
  Object Undefined Undefined Undefined Undefined (Label "lesion"%string)
    Undefined.

(** An element whose centre and width are literals beyond the binary64
    range, such as [1e999]. *)
Definition boundless : Element :=
  Object PosInf (Fin 240) PosInf (Fin 80) (Label "lesion"%string)
    (Fin 0.9).

(** An environment whose endpoint knows one image: it answers the
    payload "AAAA" with [data] and any other with the status 500. *)
Definition picky_env (data : Data.t) : Env :=
  {| ROBOFLOW_API_KEY := "sample-key"%string;
     fetch := fun r =>
       match body r with
       | Some payload =>
           if String.eqb payload "AAAA" then success data
           else failure "Internal Server Error"
       | None => failure "Internal Server Error"
       end;
     now := "11/02/26, 9:41 AM"%string;
     engine := fun _ =>
       {| name := "TypeError"%string;
          message := "Cannot read properties of null"%string |};
     engine_sort := fun es => inr es |}.

(** * Properties *)

(** ** The built-ins on sample inputs *)

Module JSStringExamples.
Local Open Scope string_scope.

Example toFixed_823 : toFixed 1 (0.823 * 100) = Some "82.3".
Proof. vm_compute. reflexivity. Qed.

Example toFixed_small : toFixed 1 (-0.04) = Some "-0.0".
Proof. vm_compute. reflexivity. Qed.

Example toFixed_half : toFixed 1 0.25 = Some "0.3".
Proof. vm_compute. reflexivity. Qed.

Example toFixed_two : toFixed 2 (1 # 3) = Some "0.33".
Proof. vm_compute. reflexivity. Qed.

Example toFixed_zero : toFixed 0 (5 # 2) = Some "3".
Proof. vm_compute. reflexivity. Qed.

Example string_of_integer_82 : string_of_integer 82 = "82".
Proof. vm_compute. reflexivity. Qed.

Example string_of_integer_big :
  string_of_integer (12 * 10 ^ 21) = "1.2e+22".
Proof. vm_compute. reflexivity. Qed.

Example string_of_integer_21 :
  string_of_integer (10 ^ 21) = "1e+21".
Proof. vm_compute. reflexivity. Qed.

Example string_of_integer_20 :
  string_of_integer (- 10 ^ 20) = "-100000000000000000000".
Proof. vm_compute. reflexivity. Qed.

Example includes_healthy :
  includes (toLowerCase "Un-HEALTHY fish") "healthy" = true.
Proof. reflexivity. Qed.

Example split_data_uri :
  split_1 ","%char "data:image/jpeg;base64,AAAA" = Some "AAAA".
Proof. reflexivity. Qed.

Example upper_symptom :
  toUpperCase (replace_hyphens "healthy-fish") = "HEALTHY FISH".
Proof. reflexivity. Qed.
End JSStringExamples.

(** ** Strings *)

Section StringFacts.
Local Open Scope string_scope.

Lemma map_append (f : ascii -> ascii) (a b : string) :
  JSString.map f (a ++ b) = JSString.map f a ++ JSString.map f b.
Proof.
  induction a as [|c a IH]; simpl; [reflexivity | now rewrite IH].
Qed.

(** A split of the image of [s] comes from a split of [s]. *)
Lemma map_split (f : ascii -> ascii) (s a b : string) :
  JSString.map f s = a ++ b ->
  exists a' b', s = a' ++ b' /\ JSString.map f a' = a
                /\ JSString.map f b' = b.
Proof.
  revert s; induction a as [|c a IH]; intros s Hs.
  - exists "", s. auto.
  - destruct s as [|d s]; simpl in Hs; [discriminate|].
    injection Hs as Hc Hs.
    destruct (IH _ Hs) as (a' & b' & -> & Ha & Hb).
    exists (String d a'), b'. simpl. subst. auto.
Qed.

Lemma prefix_iff (t s : string) :
  String.prefix t s = true <-> exists post, s = t ++ post.
Proof.
  revert s; induction t as [|c t IH]; intros s.
  - split; [exists s; reflexivity | destruct s; reflexivity].
  - destruct s as [|d s]; simpl.
    + split; [discriminate | intros [post H]; discriminate].
    + destruct (ascii_dec c d) as [->|Hne].
      * rewrite IH. split; intros [post H]; exists post.
        -- now rewrite H.
        -- now injection H.
      * split; [discriminate | intros [post H]]. congruence.
Qed.

(** [includes] decides the occurrence of [t] inside [s]. *)
Lemma includes_iff (s t : string) :
  includes s t = true <-> exists pre post, s = pre ++ t ++ post.
Proof.
  induction s as [|c s IH].
  - change (includes "" t) with (String.prefix t "" || false).
    rewrite orb_true_iff, prefix_iff. split.
    + intros [[post H]|H]; [exists "", post; assumption | discriminate].
    + intros (pre & post & H). left.
      destruct pre; [exists post; assumption | discriminate].
  - change (includes (String c s) t)
      with (String.prefix t (String c s) || includes s t).
    rewrite orb_true_iff, prefix_iff, IH. split.
    + intros [[post H]|(pre & post & H)].
      * exists "", post. assumption.
      * exists (String c pre), post. simpl. now rewrite H.
    + intros (pre & post & H). destruct pre as [|d pre].
      * left. exists post. assumption.
      * right. exists pre, post. simpl in H. now injection H.
Qed.
End StringFacts.

Lemma same_letter_b_iff (c l : ascii) :
  same_letter_b c l = true <-> same_letter c l.
Proof.
  unfold same_letter_b, same_letter.
  rewrite !orb_true_iff, !andb_true_iff, Ascii.eqb_eq, !Nat.leb_le,
    !Nat.eqb_eq.
  tauto.
Qed.

Lemma in_all_chars (c : ascii) : In c all_chars.
Proof.
  unfold all_chars. rewrite <- (ascii_nat_embedding c).
  apply in_map, in_seq. pose proof (nat_ascii_bounded c). lia.
Qed.

(** [toLowerCase] identifies two characters exactly when they are the
    same letter in either case: all 65536 pairs are checked. *)
Lemma lower_char_same_letter (c l : ascii) :
  lower_char c = lower_char l <-> same_letter c l.
Proof.
  assert (H : forallb (fun a => forallb (fun b =>
                Bool.eqb (Ascii.eqb (lower_char a) (lower_char b))
                         (same_letter_b a b)) all_chars) all_chars = true)
    by (vm_compute; reflexivity).
  rewrite forallb_forall in H. specialize (H c (in_all_chars c)).
  rewrite forallb_forall in H. specialize (H l (in_all_chars l)).
  apply Bool.eqb_prop in H.
  pose proof (same_letter_b_iff c l) as Hb.
  pose proof (Ascii.eqb_eq (lower_char c) (lower_char l)) as He.
  rewrite H in He. tauto.
Qed.

Lemma toLowerCase_eq_iff (s t : string) :
  toLowerCase s = toLowerCase t <-> eq_ignoring_case s t.
Proof.
  revert t; induction s as [|c s IH]; intros [|l t]; simpl;
    try (split; [discriminate | contradiction]); [tauto|].
  pose proof (lower_char_same_letter c l) as Hc. specialize (IH t).
  unfold toLowerCase in *. simpl. split.
  - intros H. injection H as H1 H2. split; [apply Hc | apply IH]; assumption.
  - intros [H1 H2]. apply Hc in H1. apply IH in H2. now rewrite H1, H2.
Qed.

Lemma includes_lower_iff (hay needle : string) :
  toLowerCase needle = needle ->
  includes (toLowerCase hay) needle = true
  <-> contains_ignoring_case hay needle.
Proof.
  intros Hlow. rewrite includes_iff. unfold contains_ignoring_case. split.
  - intros (pre & post & H). unfold toLowerCase in H.
    destruct (map_split _ _ _ _ H) as (pre' & r & -> & Hpre & Hr).
    destruct (map_split _ _ _ _ Hr) as (mid & post' & -> & Hmid & Hpost).
    exists pre', mid, post'. split; [reflexivity |].
    apply toLowerCase_eq_iff. rewrite Hlow. exact Hmid.
  - intros (pre & mid & post & -> & H).
    apply toLowerCase_eq_iff in H. rewrite Hlow in H.
    exists (toLowerCase pre), (toLowerCase post).
    unfold toLowerCase in *. rewrite !map_append. now rewrite H.
Qed.

(** ** The sort by confidence *)

Section SortFacts.
Abbreviation conf := Prediction.confidence.
Abbreviation sorted := (JSArray.sorted_by by_confidence).
Abbreviation insert := (JSArray.insert by_confidence).

Ltac unroll := cbn [JSArray.insert JSArray.sorted_by app].

(** The comparator asks for a swap exactly when the left element is the
    less confident one. *)
Lemma by_confidence_gt0 (v w : Prediction.t) :
  gt0 (by_confidence v w) = true <-> conf v < conf w.
Proof.
  unfold by_confidence, sub, gt0.
  destruct (conf w - conf v ?= 0) eqn:E.
  - apply Qeq_alt in E. split; [discriminate | lra].
  - apply Qlt_alt in E. split; [discriminate | lra].
  - apply Qgt_alt in E. split; [lra | reflexivity].
Qed.

Lemma by_confidence_le (v w : Prediction.t) :
  gt0 (by_confidence v w) = false <-> conf w <= conf v.
Proof.
  rewrite <- not_true_iff_false, by_confidence_gt0. lra.
Qed.

Lemma insert_perm (v : Prediction.t) (l : list Prediction.t) :
  Permutation (v :: l) (insert v l).
Proof.
  induction l as [|w l IH]; unroll; [reflexivity|].
  destruct (gt0 (by_confidence v w)); [|reflexivity].
  rewrite perm_swap. now constructor.
Qed.

Lemma sorted_perm (l : list Prediction.t) : Permutation l (sorted l).
Proof.
  induction l as [|v l IH]; unroll; [constructor|].
  rewrite <- insert_perm. now constructor.
Qed.

Lemma insert_descending (v : Prediction.t) (l : list Prediction.t) :
  descending l -> descending (insert v l).
Proof.
  unfold descending. induction 1 as [|w l Hl IH Hw]; unroll.
  - repeat constructor.
  - destruct (gt0 (by_confidence v w)) eqn:E.
    + apply by_confidence_gt0 in E. constructor; [assumption|].
      rewrite <- insert_perm. constructor; [lra | assumption].
    + apply by_confidence_le in E.
      constructor; [constructor; assumption|].
      constructor; [assumption|].
      eapply Forall_impl; [|exact Hw]. simpl. intros a Ha. lra.
Qed.

Lemma sorted_descending (l : list Prediction.t) : descending (sorted l).
Proof.
  induction l as [|v l IH]; unroll;
    [constructor | now apply insert_descending].
Qed.

(** The head of the sorted array is the first element of the original
    one whose confidence is maximal. *)
Lemma sorted_head (l : list Prediction.t) :
  l <> [] ->
  exists front best back rest,
    sorted l = best :: rest
    /\ l = front ++ best :: back
    /\ Forall (fun p => conf p < conf best) front
    /\ Forall (fun p => conf p <= conf best) back.
Proof.
  induction l as [|v l IH]; [congruence | intros _].
  destruct l as [|w l].
  - exists [], v, [], []. repeat split; constructor.
  - destruct IH as (front & best & back & rest & Hs & Hl & Hf & Hb);
      [discriminate|].
    change (sorted (v :: w :: l)) with (insert v (sorted (w :: l))).
    rewrite Hs, Hl. unroll.
    destruct (gt0 (by_confidence v best)) eqn:E.
    + apply by_confidence_gt0 in E.
      exists (v :: front), best, back, (insert v rest).
      repeat split; auto.
    + apply by_confidence_le in E.
      exists [], v, (front ++ best :: back), (best :: rest).
      repeat split; auto.
      apply Forall_app. split.
      * eapply Forall_impl; [|exact Hf]. simpl. intros a Ha. lra.
      * constructor; [assumption|].
        eapply Forall_impl; [|exact Hb]. simpl. intros a Ha. lra.
Qed.

End SortFacts.

(** ** The coordinate normalizer *)

Section NormalizerFacts.

Lemma div_finite (a b : Q) : ~ b == 0 -> div (Fin a) (Fin b) = Fin (a / b).
Proof.
  intros Hb. unfold div. destruct (b ?= 0) eqn:E; try reflexivity.
  apply Qeq_alt in E. contradiction.
Qed.

Lemma clamp_range (v : Q) : 0 <= clamp v <= 1000.
Proof.
  unfold clamp. split; [apply Q.le_max_l|].
  apply Q.max_lub; [lra | apply Q.le_min_l].
Qed.

Lemma clamp_mono (u v : Q) : u <= v -> clamp u <= clamp v.
Proof.
  intros H. unfold clamp.
  apply Q.max_le_compat_l, Q.min_le_compat_l, H.
Qed.

(** With a size that is not negative the raw lower bound is below the
    raw upper bound. *)
Lemma raw_bounds_ordered (c d size : Q) :
  0 < size -> 0 <= d ->
  (c - d / 2) / size * 1000 <= (c + d / 2) / size * 1000.
Proof.
  intros Hs Hd.
  apply Qmult_le_compat_r; [|lra].
  apply Qmult_le_compat_r;
    [|apply Qlt_le_weak, Qinv_lt_0_compat, Hs].
  assert (0 <= d / 2) by (apply Qle_shift_div_l; lra).
  lra.
Qed.

(** On non-zero image dimensions every bound is the clamped raw
    bound. *)
Lemma normalizeCoordinates_finite (p : Prediction.t) (W H : Q) :
  ~ W == 0 -> ~ H == 0 ->
  normalizeCoordinates p (Fin W) (Fin H) =
    {| ymin := Fin (Qmax 0 (Qmin 1000
                ((Prediction.y p - Prediction.height p / 2) / H * 1000)));
       xmin := Fin (Qmax 0 (Qmin 1000
                ((Prediction.x p - Prediction.width p / 2) / W * 1000)));
       ymax := Fin (Qmax 0 (Qmin 1000
                ((Prediction.y p + Prediction.height p / 2) / H * 1000)));
       xmax := Fin (Qmax 0 (Qmin 1000
                ((Prediction.x p + Prediction.width p / 2) / W * 1000)))
    |}.
Proof.
  intros HW HH. unfold normalizeCoordinates.
  assert (H2 : ~ 2 == 0) by lra.
  rewrite !(div_finite _ 2 H2). cbn [sub add].
  rewrite !(div_finite _ W HW), !(div_finite _ H HH). reflexivity.
Qed.

Lemma in_range_not_nan (n : number) : in_range n -> is_nan n = false.
Proof.
  unfold in_range. destruct n; cbn [le is_nan]; intros [H0 H1];
    (contradiction || reflexivity).
Qed.

Lemma normalizeCoordinates_in_range (p : Prediction.t) (W H : Q) :
  ~ W == 0 -> ~ H == 0 ->
  box_in_range (normalizeCoordinates p (Fin W) (Fin H)).
Proof.
  intros HW HH. rewrite normalizeCoordinates_finite by assumption.
  unfold box_in_range, in_range; cbn [ymin xmin ymax xmax le].
  repeat split; apply clamp_range.
Qed.

(** Without the guard a zero dimension does give [NaN]: the left edge of
    a box that touches the left border is [0 / 0]. *)
Example normalizeCoordinates_unguarded :
  is_nan (xmin (normalizeCoordinates
                  {| Prediction.x := 30; Prediction.y := 40;
                     Prediction.width := 60; Prediction.height := 20;
                     Prediction.class := "lesion"%string;
                     Prediction.confidence := 0.5 |}
                  (Fin 0) (Fin 0)))
  = true.
Proof. reflexivity. Qed.

End NormalizerFacts.

(** ** The inference client *)

Section ClientFacts.
Variable env : Env.
Variable img : string.

Lemma attempt_answers (data : Data.t) :
  answers env img data ->
  attempt env img =
    match Data.predictions data with
    | Absent =>
        JSArray.run (verdict env img (imgWidth data) (imgHeight data)) []
    | NotAnArray => inl (engine env NotAFunction)
    | Array ps =>
        JSArray.run (verdict env img (imgWidth data) (imgHeight data)) ps
    | Entries es =>
        JSArray.run
          (verdict_of_elements env img (imgWidth data) (imgHeight data)) es
    end.
Proof.
  intros (response & Hf & Hok & Hj). unfold attempt.
  now rewrite Hf, Hok, Hj.
Qed.

(** *** Well-formed predictions as elements *)

Lemma insert_element_of (v : Prediction.t) (l : list Prediction.t) :
  JSArray.insert by_confidence_of (element_of v) (List.map element_of l)
  = List.map element_of (JSArray.insert by_confidence v l).
Proof.
  induction l as [|w l IH]; cbn [JSArray.insert List.map]; [reflexivity|].
  change (by_confidence_of (element_of v) (element_of w))
    with (by_confidence v w).
  destruct (gt0 (by_confidence v w)); cbn [List.map];
    [rewrite IH|]; reflexivity.
Qed.

Lemma sorted_element_of (ps : list Prediction.t) :
  JSArray.sorted_by by_confidence_of (List.map element_of ps)
  = List.map element_of (JSArray.sorted_by by_confidence ps).
Proof.
  induction ps as [|p ps IH]; cbn [JSArray.sorted_by List.map];
    [reflexivity|].
  now rewrite IH, insert_element_of.
Qed.

Lemma comparable_element_of (ps : list Prediction.t) :
  forallb comparable (List.map element_of ps) = true.
Proof.
  induction ps as [|p ps IH]; [reflexivity|]. cbn [List.map forallb].
  now rewrite IH.
Qed.

(** On well-formed predictions the sort is the stable sort by
    confidence, whatever the engine. *)
Lemma sorted_elements_of (ps : list Prediction.t) :
  sorted_elements env (List.map element_of ps)
  = inr (List.map element_of (JSArray.sorted_by by_confidence ps)).
Proof.
  destruct ps as [|a [|b ps]]; try reflexivity.
  change (sorted_elements env (List.map element_of (a :: b :: ps)))
    with (if forallb comparable (List.map element_of (a :: b :: ps))
          then inr (JSArray.sorted_by by_confidence_of
                      (List.map element_of (a :: b :: ps)))
          else engine_sort env (List.map element_of (a :: b :: ps))).
  now rewrite comparable_element_of, sorted_element_of.
Qed.

Lemma boxes_of_element_of (W H : number) (ps : list Prediction.t) :
  boxes_of env W H (List.map element_of ps)
  = inr (List.map (fun p => normalizeCoordinates p W H) ps).
Proof.
  induction ps as [|p ps IH]; [reflexivity|].
  cbn [List.map]. unfold element_of at 1. cbn [boxes_of].
  now rewrite IH.
Qed.

(** The two readings of an array of well-formed predictions give the
    same result. *)
Lemma verdict_of_predictions (W H : number) (ps : list Prediction.t) :
  JSArray.run (verdict_of_elements env img W H) (List.map element_of ps)
  = JSArray.run (verdict env img W H) ps.
Proof.
  destruct ps as [|p ps]; [reflexivity|].
  set (l := p :: ps).
  unfold JSArray.run, verdict_of_elements, verdict, JSArray.bind,
    JSArray.length, sort_elements, JSArray.sort, JSArray.get,
    JSArray.map, map_elements, JSArray.ret.
  rewrite length_map.
  change (0 <? List.length l)%nat with true. cbv beta iota.
  rewrite sorted_elements_of. subst l.
  destruct (JSArray.sorted_by by_confidence (p :: ps)) as [|b rest];
    [reflexivity|].
  pose proof (boxes_of_element_of W H (b :: rest)) as Hb.
  assert (H0 : nth_error (List.map element_of (b :: rest)) 0
               = Some (element_of b)) by reflexivity.
  set (bs := List.map element_of (b :: rest)) in *. rewrite H0.
  cbn [element_of label_of deref nth_error JSArray.ret]. rewrite Hb.
  reflexivity.
Qed.

(** *** Arrays of any elements *)

Lemma verdict_of_no_elements (W H : number) :
  JSArray.run (verdict_of_elements env img W H) []
  = inr (no_fish_verdict env img).
Proof. reflexivity. Qed.

(** A verdict over an array with elements: the array after the sort
    starts with an object that has a label, no element is [null], and
    the verdict is read from that object. *)
Lemma verdict_of_elements_inv (W H : number) (es : list Element)
    (v : DetectionResult) :
  JSArray.run (verdict_of_elements env img W H) es = inr v ->
  (es = [] /\ v = no_fish_verdict env img)
  \/ (exists x y w h label c rest boxes,
        es <> []
        /\ sorted_elements env es
           = inr (Object x y w h (Label label) c :: rest)
        /\ boxes_of env W H (Object x y w h (Label label) c :: rest)
           = inr boxes
        /\ v = element_verdict env img label c boxes).
Proof.
  destruct es as [|e es].
  - intros Hv. left. split; [reflexivity|].
    rewrite verdict_of_no_elements in Hv. now injection Hv.
  - intros Hv. right.
    unfold JSArray.run, verdict_of_elements, JSArray.bind,
      JSArray.length, sort_elements, JSArray.get, map_elements,
      JSArray.ret in Hv.
    cbn [List.length Nat.ltb Nat.leb] in Hv.
    destruct (sorted_elements env (e :: es)) as [err|l]; [discriminate|].
    destruct l as [|[|x y w h [| |label] c] rest];
      cbn [nth_error label_of JSArray.throw JSArray.ret fst] in Hv;
      try discriminate.
    destruct (boxes_of env W H (Object x y w h (Label label) c :: rest))
      as [err|boxes] eqn:Hb; cbn [fst] in Hv; [discriminate|].
    injection Hv as <-.
    exists x, y, w, h, label, c, rest, boxes.
    repeat split; [discriminate | exact Hb].
Qed.


Lemma verdict_no_detections (W H : number) :
  JSArray.run (verdict env img W H) [] = inr (no_fish_verdict env img).
Proof. reflexivity. Qed.

Lemma verdict_detections (W H : number) (ps : list Prediction.t)
    (b : Prediction.t) (rest : list Prediction.t) :
  JSArray.sorted_by by_confidence ps = b :: rest ->
  JSArray.run (verdict env img W H) ps
  = inr (detection_verdict env img W H b rest).
Proof.
  intros Hs. destruct ps as [|p ps]; [discriminate|].
  unfold JSArray.run, verdict, JSArray.bind, JSArray.length,
    JSArray.sort, JSArray.get, JSArray.map, JSArray.ret.
  cbn [List.length Nat.ltb Nat.leb fst]. rewrite Hs. reflexivity.
Qed.

Lemma analyzeImage_success (r : DetectionResult) :
  attempt env img = inr r -> analyzeImage env img = ([], inr r).
Proof. intros H. unfold analyzeImage. now rewrite H. Qed.

Lemma analyzeImage_failure (e : JSError) :
  attempt env img = inl e ->
  analyzeImage env img =
    ([("Roboflow Inference failed:"%string, e)],
     inl (Error detection_failed)).
Proof. intros H. unfold analyzeImage. now rewrite H. Qed.

(** Whatever [analyzeImage] rejects with is the fixed error. *)
Lemma analyzeImage_rejection (e : JSError) :
  snd (analyzeImage env img) = inl e -> e = Error detection_failed.
Proof.
  unfold analyzeImage. destruct (attempt env img); cbn [snd]; congruence.
Qed.

Lemma analyzeImage_returns (v : DetectionResult) :
  snd (analyzeImage env img) = inr v -> attempt env img = inr v.
Proof.
  unfold analyzeImage. destruct (attempt env img); cbn [snd]; congruence.
Qed.

(** Every array the body can give is read as an array of elements. *)
Lemma attempt_elements (data : Data.t) (es : list Element) :
  answers env img data -> elements_of data = Some es ->
  attempt env img
  = JSArray.run
      (verdict_of_elements env img (imgWidth data) (imgHeight data)) es.
Proof.
  intros Ha He. rewrite (attempt_answers data Ha).
  unfold elements_of in He.
  destruct (Data.predictions data) as [| |ps|es'];
    try discriminate; injection He as <-;
    [reflexivity | symmetry; apply verdict_of_predictions | reflexivity].
Qed.

(** *** The sort and the boxes of any elements *)

Lemma insert_by_perm {A : Type} (cmp : A -> A -> number) (v : A)
    (l : list A) :
  Permutation (v :: l) (JSArray.insert cmp v l).
Proof.
  induction l as [|w l IH]; cbn [JSArray.insert]; [reflexivity|].
  destruct (gt0 (cmp v w)); [|reflexivity].
  rewrite perm_swap. now constructor.
Qed.

Lemma sorted_by_perm {A : Type} (cmp : A -> A -> number) (l : list A) :
  Permutation l (JSArray.sorted_by cmp l).
Proof.
  induction l as [|v l IH]; cbn [JSArray.sorted_by]; [constructor|].
  rewrite <- insert_by_perm. now constructor.
Qed.

Lemma sorted_elements_perm (es es' : list Element) :
  sort_permutes env -> sorted_elements env es = inr es' ->
  Permutation es es'.
Proof.
  intros Hp. destruct es as [|a [|b es]].
  - intros H. injection H as <-. constructor.
  - intros H. injection H as <-. reflexivity.
  - unfold sorted_elements.
    destruct (forallb comparable (a :: b :: es)).
    + intros H. injection H as <-.
      apply (sorted_by_perm by_confidence_of (a :: b :: es)).
    + apply Hp.
Qed.



(** Where [map] returns there is one box for each element, the box of
    an element that is not [null]. *)
Lemma boxes_of_returns (W H : number) (es : list Element)
    (boxes : list BoundingBox) :
  boxes_of env W H es = inr boxes ->
  List.length boxes = List.length es
  /\ Forall (fun b => exists x y w h cl c,
                In (Object x y w h cl c) es
                /\ b = normalizeElement x y w h W H) boxes.
Proof.
  revert boxes; induction es as [|[|x y w h cl c] es IH]; intros boxes;
    cbn [boxes_of].
  - intros Hb. injection Hb as <-. split; [reflexivity | constructor].
  - discriminate.
  - destruct (boxes_of env W H es) as [err|bs]; [discriminate|].
    intros Hb. injection Hb as <-.
    destruct (IH bs eq_refl) as [Hl Hf]. split.
    + cbn [List.length]. now rewrite Hl.
    + constructor.
      * exists x, y, w, h, cl, c. split; [left; reflexivity | reflexivity].
      * eapply Forall_impl; [|exact Hf]. cbn beta.
        intros b (x' & y' & w' & h' & cl' & c' & Hin & ->).
        exists x', y', w', h', cl', c'. split; [right; exact Hin|].
        reflexivity.
Qed.


(** The box of an element with finite coordinates on finite dimensions
    other than zero. *)
Lemma normalizeElement_in_range (e : Element) (W H : Q) :
  finite_box e -> ~ W == 0 -> ~ H == 0 ->
  forall x y w h cl c,
    e = Object x y w h cl c ->
    box_in_range (normalizeElement x y w h (Fin W) (Fin H)).
Proof.
  intros Hf HW HH x y w h cl c ->.
  destruct x as [|[| | |x]], y as [|[| | |y]], w as [|[| | |w]],
    h as [|[| | |h]]; try contradiction.
  apply (normalizeCoordinates_in_range
           {| Prediction.x := x; Prediction.y := y;
              Prediction.width := w; Prediction.height := h;
              Prediction.class := ""%string;
              Prediction.confidence := 0 |} W H HW HH).
Qed.



End ClientFacts.

(** * The claims *)

Section Claims.
Abbreviation conf := Prediction.confidence.
Abbreviation class := Prediction.class.

Lemma verdict_status_Safe (b : Prediction.t) :
  verdict_status b = Safe <-> contains_ignoring_case (class b) "healthy".
Proof.
  rewrite <- includes_lower_iff by reflexivity. unfold verdict_status.
  destruct (includes _ _); split; congruence.
Qed.

Lemma verdict_status_Contaminated (b : Prediction.t) :
  verdict_status b = Contaminated
  <-> ~ contains_ignoring_case (class b) "healthy".
Proof.
  rewrite <- includes_lower_iff by reflexivity. unfold verdict_status.
  destruct (includes _ _); split; congruence.
Qed.

(** What [analyzeImage] returns on a non-empty prediction list. *)
Lemma analyzeImage_detections (env : Env) (img : string) (data : Data.t)
    (ps : list Prediction.t) :
  answers env img data -> Data.predictions data = Array ps -> ps <> [] ->
  exists front best back rest,
    JSArray.sorted_by by_confidence ps = best :: rest
    /\ ps = front ++ best :: back
    /\ Forall (fun p => conf p < conf best) front
    /\ Forall (fun p => conf p <= conf best) back
    /\ analyzeImage env img =
         ([], inr (detection_verdict env img (imgWidth data)
                     (imgHeight data) best rest)).
Proof.
  intros Ha Hps Hne.
  destruct (sorted_head ps Hne) as (front & best & back & rest & Hs & H).
  exists front, best, back, rest. split; [assumption|].
  destruct H as (Hl & Hf & Hb). repeat split; try assumption.
  apply analyzeImage_success. rewrite (attempt_answers _ _ _ Ha), Hps.
  now apply verdict_detections.
Qed.

(** C1.  On a non-empty prediction list the verdict is derived from the
    prediction of maximum confidence, the first such one of the list: the
    verdict carries its confidence, and the status is Safe exactly when
    its class label contains "healthy" up to the case of the letters (a
    part of the label is "healthy" letter for letter, each letter small
    or capital), Contaminated otherwise.  For the list of a
    "healthy-fish" at 0.9 and a "lesion" at 0.95 the best prediction is
    the lesion and the status is Contaminated. *)
Theorem C1_best_prediction_decides_status :
  (forall (env : Env) (img : string) (data : Data.t)
          (ps : list Prediction.t),
      answers env img data ->
      Data.predictions data = Array ps ->
      ps <> [] ->
      exists front best back v,
        ps = front ++ best :: back
        /\ Forall (fun p => conf p < conf best) front
        /\ Forall (fun p => conf p <= conf best) back
        /\ analyzeImage env img = ([], inr v)
        /\ confidence v = Fin (conf best)
        /\ (status v = Safe
            <-> contains_ignoring_case (class best) "healthy")
        /\ (status v = Contaminated
            <-> ~ contains_ignoring_case (class best) "healthy"))
  /\ (forall (env : Env) (img : string) (data : Data.t)
             (x1 y1 w1 h1 x2 y2 w2 h2 : Q),
         let healthy :=
           {| Prediction.x := x1; Prediction.y := y1;
              Prediction.width := w1; Prediction.height := h1;
              Prediction.class := "healthy-fish"%string;
              Prediction.confidence := 0.9 |} in
         let sick :=
           {| Prediction.x := x2; Prediction.y := y2;
              Prediction.width := w2; Prediction.height := h2;
              Prediction.class := "lesion"%string;
              Prediction.confidence := 0.95 |} in
         answers env img data ->
         Data.predictions data = Array [healthy; sick] ->
         exists v,
           analyzeImage env img = ([], inr v)
           /\ confidence v = Fin (conf sick)
           /\ status v = Contaminated).
Proof.
  split.
  - intros env img data ps Ha Hps Hne.
    destruct (analyzeImage_detections env img data ps Ha Hps Hne)
      as (front & best & back & rest & _ & Hl & Hf & Hb & Hv).
    exists front, best, back, (detection_verdict env img (imgWidth data)
                                 (imgHeight data) best rest).
    repeat split; try assumption; cbn [status detection_verdict] in *;
      try (now apply verdict_status_Safe);
      try (now apply verdict_status_Contaminated).
  - intros env img data x1 y1 w1 h1 x2 y2 w2 h2 healthy sick Ha Hps.
    exists (detection_verdict env img (imgWidth data) (imgHeight data)
              sick [healthy]).
    split; [|repeat split].
    apply analyzeImage_success. rewrite (attempt_answers _ _ _ Ha), Hps.
    now apply verdict_detections.
Qed.

(** A single prediction labelled "Healthy" at 0.8 gives the status Safe
    and the primary symptom "HEALTHY". *)
Example analyzeImage_single_healthy :
  exists v,
    analyzeImage
      (sample_env
         (success
            (sample_data
               (Array [{| Prediction.x := 100; Prediction.y := 120;
                          Prediction.width := 60; Prediction.height := 40;
                          Prediction.class := "Healthy"%string;
                          Prediction.confidence := 0.8 |}])
               (Some 640) (Some 480))))
      "data:image/jpeg;base64,AAAA"
    = ([], inr v)
    /\ status v = Safe
    /\ primarySymptom v = Some "HEALTHY"%string.
Proof. eexists. repeat split. Qed.

(** The capitals of "Un-HEALTHY fish" are read as small letters. *)
Example contains_ignoring_case_capitals :
  contains_ignoring_case "Un-HEALTHY fish" "healthy".
Proof.
  exists "Un-"%string, "HEALTHY"%string, " fish"%string.
  split; [reflexivity|]. cbn [eq_ignoring_case].
  repeat split; right; left; cbn; lia.
Qed.

Lemma C1_witness :
  (exists front best back v,
      [healthy_fish; lesion] = front ++ best :: back
      /\ Forall (fun p => conf p < conf best) front
      /\ Forall (fun p => conf p <= conf best) back
      /\ analyzeImage
           (sample_env
              (success (sample_data (Array [healthy_fish; lesion])
                          (Some 640) (Some 480))))
           "data:image/jpeg;base64,AAAA"
         = ([], inr v)
      /\ confidence v = Fin (conf best)
      /\ (status v = Safe
          <-> contains_ignoring_case (class best) "healthy")
      /\ (status v = Contaminated
          <-> ~ contains_ignoring_case (class best) "healthy"))
  /\ (exists v,
         analyzeImage
           (sample_env
              (success (sample_data (Array [healthy_fish; lesion])
                          (Some 640) (Some 480))))
           "data:image/jpeg;base64,AAAA"
         = ([], inr v)
         /\ confidence v = Fin (conf lesion)
         /\ status v = Contaminated).
Proof.
  split.
  - apply (proj1 C1_best_prediction_decides_status
             (sample_env
                (success (sample_data (Array [healthy_fish; lesion])
                            (Some 640) (Some 480))))
             "data:image/jpeg;base64,AAAA"%string
             (sample_data (Array [healthy_fish; lesion])
                (Some 640) (Some 480))
             [healthy_fish; lesion]).
    + eexists. repeat split.
    + reflexivity.
    + discriminate.
  - apply (proj2 C1_best_prediction_decides_status
             (sample_env
                (success (sample_data (Array [healthy_fish; lesion])
                            (Some 640) (Some 480))))
             "data:image/jpeg;base64,AAAA"%string
             (sample_data (Array [healthy_fish; lesion])
                (Some 640) (Some 480))
             100 120 60 40 320 240 120 80).
    + eexists. repeat split.
    + reflexivity.
Defined.

(** The claim of an ordered box fails on a negative width: with centre 50
    and width -20 in an image 100 wide, [xmin] is 600 and [xmax] is 400. *)
Lemma C2_counterexample :
  0 < 100
  /\ eqv (xmin (normalizeCoordinates inverted (Fin 100) (Fin 100))) (Fin 600)
  /\ eqv (xmax (normalizeCoordinates inverted (Fin 100) (Fin 100))) (Fin 400)
  /\ ~ box_ordered (normalizeCoordinates inverted (Fin 100) (Fin 100)).
Proof.
  repeat split; try reflexivity.
  intros [_ H]. vm_compute in H. apply H. reflexivity.
Qed.

(** C2, amended.  For image dimensions W, H > 0 and a prediction whose
    width and height are not negative, the normalizer computes
    xmin = (cx - w/2)/W*1000, xmax = (cx + w/2)/W*1000,
    ymin = (cy - h/2)/H*1000 and ymax = (cy + h/2)/H*1000, each clamped
    into [0, 1000], and the box satisfies 0 <= ymin <= ymax <= 1000 and
    0 <= xmin <= xmax <= 1000, also when the raw box exceeds the image. *)
Theorem C2_normalized_box (p : Prediction.t) (W H : Q) :
  0 < W -> 0 < H ->
  0 <= Prediction.width p -> 0 <= Prediction.height p ->
  let b := normalizeCoordinates p (Fin W) (Fin H) in
  xmin b = Fin (clamp ((Prediction.x p - Prediction.width p / 2) / W * 1000))
  /\ xmax b
     = Fin (clamp ((Prediction.x p + Prediction.width p / 2) / W * 1000))
  /\ ymin b
     = Fin (clamp ((Prediction.y p - Prediction.height p / 2) / H * 1000))
  /\ ymax b
     = Fin (clamp ((Prediction.y p + Prediction.height p / 2) / H * 1000))
  /\ box_in_range b
  /\ box_ordered b.
Proof.
  intros HW HH Hw Hh b.
  assert (HW0 : ~ W == 0) by lra. assert (HH0 : ~ H == 0) by lra.
  assert (Hb : box_in_range b)
    by (apply normalizeCoordinates_in_range; assumption).
  subst b. rewrite normalizeCoordinates_finite in * by assumption.
  cbn [xmin xmax ymin ymax]. repeat split; try apply Hb.
  - cbn [le ymin ymax]. apply clamp_mono, raw_bounds_ordered; assumption.
  - cbn [le xmin xmax]. apply clamp_mono, raw_bounds_ordered; assumption.
Qed.

Lemma C2_witness :
  let b := normalizeCoordinates lesion (Fin 640) (Fin 480) in
  xmin b = Fin (clamp ((320 - 120 / 2) / 640 * 1000))
  /\ xmax b = Fin (clamp ((320 + 120 / 2) / 640 * 1000))
  /\ ymin b = Fin (clamp ((240 - 80 / 2) / 480 * 1000))
  /\ ymax b = Fin (clamp ((240 + 80 / 2) / 480 * 1000))
  /\ box_in_range b
  /\ box_ordered b.
Proof.
  apply (C2_normalized_box lesion 640 480); simpl; lra.
Defined.

(** What [analyzeImage] returns on an empty or missing prediction
    list. *)
Lemma analyzeImage_no_detections (env : Env) (img : string)
    (data : Data.t) :
  answers env img data ->
  Data.predictions data = Array [] \/ Data.predictions data = Absent ->
  analyzeImage env img = ([], inr (no_fish_verdict env img)).
Proof.
  intros Ha Hps. apply analyzeImage_success.
  rewrite (attempt_answers _ _ _ Ha).
  destruct Hps as [-> | ->]; apply verdict_no_detections.
Qed.

(** C3.  A successful response whose prediction list is empty gives the
    verdict No Fish Detected with confidence 0, no bounding boxes, the
    primary symptom "NONE" and the fixed description and guidance
    texts. *)
Theorem C3_empty_list_no_fish_detected
    (env : Env) (img : string) (data : Data.t) :
  answers env img data ->
  Data.predictions data = Array [] ->
  exists v,
    analyzeImage env img = ([], inr v)
    /\ status v = NoFishDetected
    /\ confidence v = Fin 0
    /\ boundingBoxes v = Some []
    /\ primarySymptom v = Some "NONE"%string
    /\ description v
       = "No fish or HAB indicators were detected in the frame. Please ensure the sample is centered and well-lit."%string
    /\ guidance v
       = "Please try scanning again. Position the fish clearly in the center of the frame."%string.
Proof.
  intros Ha Hps. exists (no_fish_verdict env img).
  split; [|repeat split].
  apply (analyzeImage_no_detections env img data); auto.
Qed.

Lemma C3_witness :
  exists v,
    analyzeImage
      (sample_env (success (sample_data (Array []) (Some 640) (Some 480))))
      "data:image/jpeg;base64,AAAA"
    = ([], inr v)
    /\ status v = NoFishDetected
    /\ confidence v = Fin 0
    /\ boundingBoxes v = Some []
    /\ primarySymptom v = Some "NONE"%string
    /\ description v
       = "No fish or HAB indicators were detected in the frame. Please ensure the sample is centered and well-lit."%string
    /\ guidance v
       = "Please try scanning again. Position the fish clearly in the center of the frame."%string.
Proof.
  apply (C3_empty_list_no_fish_detected
           (sample_env
              (success (sample_data (Array []) (Some 640) (Some 480))))
           "data:image/jpeg;base64,AAAA"%string
           (sample_data (Array []) (Some 640) (Some 480))).
  - eexists. repeat split.
  - reflexivity.
Defined.

(** The error that reaches the caller on the status text "Forbidden" is
    the fixed one; the status text is not part of it. *)
Lemma C4_counterexample :
  exists e,
    snd (analyzeImage (sample_env (failure "Forbidden"))
           "data:image/jpeg;base64,AAAA")
    = inl e
    /\ message e
       = "Detection failed. Please check your Roboflow API configuration."%string
    /\ includes (message e) "Forbidden" = false.
Proof. eexists. repeat split. Qed.

(** C4, amended.  On a response with a status that is not a success,
    [analyzeImage] fails and constructs no verdict; the error carrying
    the status text is thrown inside the function, written to the console
    and replaced by the fixed "Detection failed" error, which is the one
    the caller receives. *)
Theorem C4_failure_status_rejects
    (env : Env) (img : string) (response : Response) :
  fetch env (request env img) = Resolves response ->
  ok response = false ->
  analyzeImage env img
  = ([("Roboflow Inference failed:"%string,
       Error ("Roboflow API error: " ++ statusText response)%string)],
     inl (Error "Detection failed. Please check your Roboflow API configuration."%string)).
Proof.
  intros Hf Hok. apply analyzeImage_failure.
  unfold attempt. now rewrite Hf, Hok.
Qed.

Lemma C4_witness :
  analyzeImage (sample_env (failure "Forbidden"))
    "data:image/jpeg;base64,AAAA"
  = ([("Roboflow Inference failed:"%string,
       Error "Roboflow API error: Forbidden"%string)],
     inl (Error "Detection failed. Please check your Roboflow API configuration."%string)).
Proof.
  apply (C4_failure_status_rejects (sample_env (failure "Forbidden"))
           "data:image/jpeg;base64,AAAA"%string
           {| ok := false; statusText := "Forbidden"%string;
              json := BodyRejects (Error "Unexpected token"%string) |});
    reflexivity.
Defined.

(** A dimension that is zero or missing is read as 1. *)
Lemma or_default_zero (v : option number) :
  is_zero v -> or_default v (Fin 1) = Fin 1.
Proof.
  intros (q & -> & Hq). cbn [or_default truthy].
  now rewrite (proj2 (Qeq_bool_iff q 0) Hq).
Qed.

(** A finite or missing dimension is read as a finite number other than
    zero. *)
Lemma or_default_finite (v : option number) :
  finite_dim v -> exists q, or_default v (Fin 1) = Fin q /\ ~ q == 0.
Proof.
  destruct v as [[| | |q]|]; cbn [finite_dim or_default truthy];
    try contradiction; intros _.
  - destruct (Qeq_bool q 0) eqn:E; cbn [negb].
    + exists 1. split; [reflexivity | lra].
    + exists q. split; [reflexivity | now apply Qeq_bool_neq].
  - exists 1. split; [reflexivity | lra].
Qed.

(** The boxes of a verdict: one per prediction, in the order the sort
    left the array in, scaled by the dimensions read from the body. *)
Lemma analyzeImage_boxes (env : Env) (img : string) (data : Data.t)
    (ps : list Prediction.t) :
  answers env img data -> Data.predictions data = Array ps ->
  exists v,
    analyzeImage env img = ([], inr v)
    /\ boundingBoxes v
       = Some (List.map
                 (fun p => normalizeCoordinates p (imgWidth data)
                             (imgHeight data))
                 (JSArray.sorted_by by_confidence ps)).
Proof.
  intros Ha Hps. destruct ps as [|p ps].
  - exists (no_fish_verdict env img). split; [|reflexivity].
    apply (analyzeImage_no_detections env img data); auto.
  - destruct (analyzeImage_detections env img data (p :: ps) Ha Hps)
      as (front & best & back & rest & Hs & _ & _ & _ & Hv);
      [discriminate|].
    eexists. split; [exact Hv|]. now rewrite Hs.
Qed.


(** An element with nothing but a label gives a verdict too: its
    confidence is [undefined], its description says "NaN%" and every
    bound of its box is [NaN]. *)
Example analyzeImage_bare_label :
  exists v b,
    analyzeImage
      (sample_env
         (success (sample_data (Entries [bare_label])
                     (Some 640) (Some 480))))
      "data:image/jpeg;base64,AAAA"
    = ([], inr v)
    /\ status v = Contaminated
    /\ confidence v = Undefined
    /\ description v
       = "Your custom model detected lesion with NaN% certainty. This indicates a high risk of HAB contamination."%string
    /\ boundingBoxes v = Some [b]
    /\ is_nan (xmin b) = true /\ is_nan (xmax b) = true
    /\ is_nan (ymin b) = true /\ is_nan (ymax b) = true.
Proof. do 2 eexists. repeat split. Qed.



(** The boxes of a verdict over elements with finite coordinates, on
    finite or missing dimensions: one for each element, within the
    range. *)
Lemma finite_boxes_in_range (env : Env) (img : string) (data : Data.t)
    (es : list Element) (v : DetectionResult) :
  answers env img data ->
  sort_permutes env ->
  elements_of data = Some es ->
  Forall finite_box es ->
  finite_dim (width_of data) ->
  finite_dim (height_of data) ->
  snd (analyzeImage env img) = inr v ->
  exists boxes,
    boundingBoxes v = Some boxes
    /\ List.length boxes = List.length es
    /\ Forall box_in_range boxes.
Proof.
  intros Ha Hp He Hfin HW HH Hv. apply analyzeImage_returns in Hv.
  rewrite (attempt_elements env img data es Ha He) in Hv.
  apply verdict_of_elements_inv in Hv.
  destruct Hv as [[-> ->] | (x & y & w & h & l & c & rest & boxes
                             & _ & Hs & Hb & ->)].
  - exists []. repeat split; constructor.
  - exists boxes. split; [reflexivity|].
    pose proof (sorted_elements_perm env _ _ Hp Hs) as Hperm.
    destruct (boxes_of_returns env _ _ _ _ Hb) as [Hl Hboxes].
    split; [rewrite Hl; symmetry; now apply Permutation_length|].
    destruct (or_default_finite _ HW) as (qW & HqW & HW0).
    destruct (or_default_finite _ HH) as (qH & HqH & HH0).
    eapply Forall_impl; [|exact Hboxes]. cbn beta.
    intros b (x' & y' & w' & h' & cl' & c' & Hin & ->).
    unfold imgWidth, imgHeight. fold (width_of data) (height_of data).
    rewrite HqW, HqH.
    assert (Hf : finite_box (Object x' y' w' h' cl' c')).
    { rewrite Forall_forall in Hfin. apply Hfin.
      apply (Permutation_in _ (Permutation_sym Hperm) Hin). }
    apply (normalizeElement_in_range (Object x' y' w' h' cl' c')
             qW qH Hf HW0 HH0 x' y' w' h' cl' c' eq_refl).
Qed.

(** The guard does not cover a number that is not finite.  A body that
    gives the image width as 0 and a prediction whose centre and width
    are literals beyond the binary64 range, which are read as Infinity:
    the width is read as 1 and the left bound of the box is
    [Infinity - Infinity], which is NaN. *)
Lemma C6_counterexample :
  is_zero (width_of (sample_data (Entries [boundless]) (Some 0) (Some 480)))
  /\ imgWidth (sample_data (Entries [boundless]) (Some 0) (Some 480))
     = Fin 1
  /\ exists v b,
       analyzeImage
         (sample_env
            (success (sample_data (Entries [boundless])
                        (Some 0) (Some 480))))
         "data:image/jpeg;base64,AAAA"
       = ([], inr v)
       /\ boundingBoxes v = Some [b]
       /\ is_nan (xmin b) = true
       /\ ~ box_has_no_nan b.
Proof.
  split; [exists 0; split; reflexivity|]. split; [reflexivity|].
  do 2 eexists. repeat split.
  intros (_ & H & _). discriminate H.
Qed.

(** C6, amended.  A zero image width or height is read as 1 before it
    reaches the normalizer.  When every coordinate of every element of
    the prediction array is a finite number and the image dimensions are
    finite numbers or missing, no bound of any box of a verdict is NaN:
    there is one box for each element and each of its bounds is a number
    within [0, 1000].  On well-formed predictions a verdict is
    returned.  Where the order of the array is left to the engine, the
    engine's sort is taken to return the elements it was given. *)
Theorem C6_zero_dimension_guarded
    (env : Env) (img : string) (data : Data.t) (es : list Element) :
  answers env img data ->
  sort_permutes env ->
  elements_of data = Some es ->
  Forall finite_box es ->
  finite_dim (width_of data) ->
  finite_dim (height_of data) ->
  (is_zero (width_of data) -> imgWidth data = Fin 1)
  /\ (is_zero (height_of data) -> imgHeight data = Fin 1)
  /\ (forall v,
         snd (analyzeImage env img) = inr v ->
         exists boxes,
           boundingBoxes v = Some boxes
           /\ List.length boxes = List.length es
           /\ Forall box_has_no_nan boxes
           /\ Forall box_in_range boxes)
  /\ (forall ps,
         Data.predictions data = Array ps ->
         exists v, analyzeImage env img = ([], inr v)).
Proof.
  intros Ha Hp He Hfin HW HH.
  split; [apply or_default_zero|]. split; [apply or_default_zero|].
  split.
  - intros v Hv.
    destruct (finite_boxes_in_range env img data es v Ha Hp He Hfin HW HH
                Hv) as (boxes & Hb & Hl & Hr).
    exists boxes. repeat split; try assumption.
    eapply Forall_impl; [|exact Hr]. cbn beta.
    intros b (H1 & H2 & H3 & H4).
    repeat split; now apply in_range_not_nan.
  - intros ps Hps.
    destruct (analyzeImage_boxes env img data ps Ha Hps) as (v & Hv & _).
    exists v. exact Hv.
Qed.

Lemma C6_witness :
  imgWidth (sample_data (Array [healthy_fish; lesion]) (Some 0) (Some 480))
  = Fin 1
  /\ (forall v,
         snd (analyzeImage
                (sample_env
                   (success (sample_data (Array [healthy_fish; lesion])
                               (Some 0) (Some 480))))
                "data:image/jpeg;base64,AAAA")
         = inr v ->
         exists boxes,
           boundingBoxes v = Some boxes
           /\ List.length boxes = 2%nat
           /\ Forall box_has_no_nan boxes
           /\ Forall box_in_range boxes)
  /\ exists v,
       analyzeImage
         (sample_env
            (success (sample_data (Array [healthy_fish; lesion])
                        (Some 0) (Some 480))))
         "data:image/jpeg;base64,AAAA"
       = ([], inr v).
Proof.
  destruct (C6_zero_dimension_guarded
              (sample_env
                 (success (sample_data (Array [healthy_fish; lesion])
                             (Some 0) (Some 480))))
              "data:image/jpeg;base64,AAAA"%string
              (sample_data (Array [healthy_fish; lesion])
                 (Some 0) (Some 480))
              (List.map element_of [healthy_fish; lesion]))
    as (Hw & _ & Hboxes & Hv).
  - eexists. repeat split.
  - intros es es' H. injection H as <-. apply Permutation_refl.
  - reflexivity.
  - repeat constructor.
  - exact I.
  - exact I.
  - split; [|split].
    + apply Hw. exists 0. split; reflexivity.
    + exact Hboxes.
    + apply (Hv [healthy_fish; lesion]). reflexivity.
Defined.

(** C7.  When the inference fails while the application is analyzing,
    the application moves to the error state and stores a message; the
    captured frame stays as it is and no verdict is stored: the verdict
    field keeps the value it had before the capture. *)
Theorem C7_failure_keeps_frame_and_verdict :
  (forall (s : App.State) (err : JSError),
      let final := App.handleCapture_settle (inl err) s in
      App.status final = ERROR
      /\ (exists m, App.error final = Some m /\ m <> ""%string)
      /\ App.lastImg final = App.lastImg s
      /\ App.result final = App.result s
      /\ App.isFlashOn final = App.isFlashOn s)
  /\ (forall (env : Env) (img : string) (s : App.State) (err : JSError),
         snd (analyzeImage env img) = inl err ->
         let analyzing := App.handleCapture_begin img s in
         let final := App.handleCapture env img s in
         App.status analyzing = ANALYZING
         /\ App.lastImg analyzing = Some img
         /\ App.result analyzing = App.result s
         /\ final = App.handleCapture_settle (inl err) analyzing
         /\ App.status final = ERROR
         /\ App.error final
            = Some "Detection failed. Please check your Roboflow API configuration."%string
         /\ App.lastImg final = Some img
         /\ App.result final = App.result s).
Proof.
  split.
  - intros s err final. subst final. cbn. repeat split.
    exists (or_else (message err)
              "An unexpected error occurred during analysis.").
    split; [reflexivity|]. destruct (message err); discriminate.
  - intros env img s err Hfail analyzing final. subst analyzing final.
    unfold App.handleCapture. rewrite Hfail.
    rewrite (analyzeImage_rejection env img err Hfail).
    repeat split.
Qed.

Lemma C7_witness :
  let s := App.initial in
  let img := "data:image/jpeg;base64,AAAA"%string in
  let env := sample_env (failure "Forbidden") in
  let err := Error "Detection failed. Please check your Roboflow API configuration."%string in
  let analyzing := App.handleCapture_begin img s in
  let final := App.handleCapture env img s in
  App.status analyzing = ANALYZING
  /\ App.lastImg analyzing = Some img
  /\ App.result analyzing = App.result s
  /\ final = App.handleCapture_settle (inl err) analyzing
  /\ App.status final = ERROR
  /\ App.error final
     = Some "Detection failed. Please check your Roboflow API configuration."%string
  /\ App.lastImg final = Some img
  /\ App.result final = App.result s.
Proof.
  apply (proj2 C7_failure_keeps_frame_and_verdict
           (sample_env (failure "Forbidden"))
           "data:image/jpeg;base64,AAAA"%string App.initial
           (Error "Detection failed. Please check your Roboflow API configuration."%string)).
  reflexivity.
Defined.

(** C8.  The reset brings the application back to the idle state with no
    verdict and no error, from the success and the error state as from any
    other; the cycle of a capture, a successful analysis and a reset ends
    with the verdict and the error as empty as they were at the start. *)
Theorem C8_reset_returns_to_idle :
  (forall s : App.State,
      let r := App.resetDetection s in
      App.status r = IDLE
      /\ App.result r = None
      /\ App.error r = None
      /\ App.lastImg r = App.lastImg s
      /\ App.isFlashOn r = App.isFlashOn s)
  /\ (forall (env : Env) (img : string) (v : DetectionResult),
         snd (analyzeImage env img) = inr v ->
         let analyzing := App.handleCapture_begin img App.initial in
         let done := App.handleCapture env img App.initial in
         let back := App.resetDetection done in
         App.status App.initial = IDLE
         /\ App.status analyzing = ANALYZING
         /\ App.status done = SUCCESS
         /\ App.result done = Some v
         /\ App.error done = None
         /\ App.status back = IDLE
         /\ App.result back = App.result App.initial
         /\ App.error back = App.error App.initial).
Proof.
  split.
  - intros s r. subst r. repeat split.
  - intros env img v Hok analyzing done back. subst analyzing done back.
    unfold App.handleCapture. rewrite Hok. repeat split.
Qed.

Lemma C8_witness :
  let env :=
    sample_env
      (success (sample_data (Array [healthy_fish; lesion])
                  (Some 640) (Some 480))) in
  let img := "data:image/jpeg;base64,AAAA"%string in
  let v :=
    detection_verdict env img (Fin 640) (Fin 480) lesion [healthy_fish] in
  let analyzing := App.handleCapture_begin img App.initial in
  let done := App.handleCapture env img App.initial in
  let back := App.resetDetection done in
  App.status App.initial = IDLE
  /\ App.status analyzing = ANALYZING
  /\ App.status done = SUCCESS
  /\ App.result done = Some v
  /\ App.error done = None
  /\ App.status back = IDLE
  /\ App.result back = App.result App.initial
  /\ App.error back = App.error App.initial.
Proof.
  apply (proj2 C8_reset_returns_to_idle
           (sample_env
              (success (sample_data (Array [healthy_fish; lesion])
                          (Some 640) (Some 480))))
           "data:image/jpeg;base64,AAAA"%string).
  reflexivity.
Defined.

(** C9.  A confidence of 0.823 is printed as "82%" in the description of
    the verdict, rounded to the nearest integer, and as "82.3%", with one
    decimal, on the result display and in the report; the two roundings
    give the same digits on the binary64 product [0.823 * 100]. *)
#[warnings="-inexact-float"] Theorem C9_two_roundings :
  (percent 0.823 = "82"%string /\ percent_1 (Fin 0.823) = Some "82.3"%string)
  /\ (exists q,
         Binary64.exact (0.823 * 100)%float = Some q
         /\ string_of_integer (round q) = "82"%string
         /\ toFixed 1 q = Some "82.3"%string)
  /\ (forall (env : Env) (img : string) (data : Data.t)
             (x y w h : Q) (label : string),
         answers env img data ->
         Data.predictions data
         = Array [{| Prediction.x := x; Prediction.y := y;
                     Prediction.width := w; Prediction.height := h;
                     Prediction.class := label;
                     Prediction.confidence := 0.823 |}] ->
         exists v,
           analyzeImage env img = ([], inr v)
           /\ description v
              = (if is_Safe (status v)
                 then "The AI model identified the sample as " ++ label
                        ++ " with 82% confidence. No HAB indicators were found."
                 else "Your custom model detected " ++ label
                        ++ " with 82% certainty. This indicates a high risk of HAB contamination.")%string
           /\ confidence_label v = Some "82.3%"%string
           /\ reportContent v
              = Some ("LIYA - HAB DETECTION REPORT" ++ nl
                        ++ "==========================" ++ nl
                        ++ "Date/Time: " ++ timestamp v ++ nl
                        ++ "Location: " ++ show (location v) ++ nl
                        ++ "Overall Status: " ++ status_text (status v) ++ nl
                        ++ "Confidence: 82.3%" ++ nl ++ nl
                        ++ "INDICATORS DETECTED:" ++ nl
                        ++ "- Primary Indicator: "
                        ++ show (primarySymptom v) ++ nl
                        ++ "- Description: " ++ description v ++ nl ++ nl
                        ++ "GUIDANCE:" ++ nl
                        ++ "- " ++ guidance v ++ nl ++ nl
                        ++ "CONTACTS:" ++ nl
                        ++ "- LLDA: (02) 8376-4039" ++ nl
                        ++ "- BFAR: (049) 536-8200" ++ nl
                        ++ "==========================")%string).
Proof.
  split; [split; reflexivity|].
  split; [eexists; repeat split; vm_compute; reflexivity|].
  intros env img data x y w h label Ha Hps.
  eexists. split.
  - apply analyzeImage_success. rewrite (attempt_answers _ _ _ Ha), Hps.
    now apply verdict_detections.
  - repeat split.
Qed.

Lemma C9_witness :
  exists v,
    analyzeImage
      (sample_env
         (success (sample_data (Array [faint]) (Some 640) (Some 480))))
      "data:image/jpeg;base64,AAAA"
    = ([], inr v)
    /\ description v
       = (if is_Safe (status v)
          then "The AI model identified the sample as red-gills with 82% confidence. No HAB indicators were found."
          else "Your custom model detected red-gills with 82% certainty. This indicates a high risk of HAB contamination.")%string
    /\ confidence_label v = Some "82.3%"%string
    /\ reportContent v
       = Some ("LIYA - HAB DETECTION REPORT" ++ nl
                 ++ "==========================" ++ nl
                 ++ "Date/Time: " ++ timestamp v ++ nl
                 ++ "Location: " ++ show (location v) ++ nl
                 ++ "Overall Status: " ++ status_text (status v) ++ nl
                 ++ "Confidence: 82.3%" ++ nl ++ nl
                 ++ "INDICATORS DETECTED:" ++ nl
                 ++ "- Primary Indicator: " ++ show (primarySymptom v) ++ nl
                 ++ "- Description: " ++ description v ++ nl ++ nl
                 ++ "GUIDANCE:" ++ nl
                 ++ "- " ++ guidance v ++ nl ++ nl
                 ++ "CONTACTS:" ++ nl
                 ++ "- LLDA: (02) 8376-4039" ++ nl
                 ++ "- BFAR: (049) 536-8200" ++ nl
                 ++ "==========================")%string.
Proof.
  apply (proj2 (proj2 C9_two_roundings)
           (sample_env
              (success (sample_data (Array [faint]) (Some 640) (Some 480))))
           "data:image/jpeg;base64,AAAA"%string
           (sample_data (Array [faint]) (Some 640) (Some 480))
           200 150 90 70 "red-gills"%string).
  - eexists. repeat split.
  - reflexivity.
Defined.

(** The response lists the healthy fish first; the verdict lists the box
    of the lesion first. *)
Example analyzeImage_reorders_boxes :
  exists v,
    analyzeImage
      (sample_env
         (success (sample_data (Array [healthy_fish; lesion])
                     (Some 640) (Some 480))))
      "data:image/jpeg;base64,AAAA"
    = ([], inr v)
    /\ boundingBoxes v
       = Some [normalizeCoordinates lesion (Fin 640) (Fin 480);
               normalizeCoordinates healthy_fish (Fin 640) (Fin 480)].
Proof. eexists. split; reflexivity. Qed.

(** C10.  On a non-empty prediction list the boxes of the verdict follow
    the array as the sort left it, in non-increasing order of confidence:
    the sort that picks the best prediction reorders the very array the
    boxes are mapped from.  The first box, the one the result display
    zooms on, is the box of the best prediction. *)
Theorem C10_boxes_follow_sorted_order
    (env : Env) (img : string) (data : Data.t) (ps : list Prediction.t) :
  answers env img data ->
  Data.predictions data = Array ps ->
  ps <> [] ->
  exists best rest v,
    Permutation ps (best :: rest)
    /\ descending (best :: rest)
    /\ Forall (fun p => conf p <= conf best) ps
    /\ analyzeImage env img = ([], inr v)
    /\ confidence v = Fin (conf best)
    /\ boundingBoxes v
       = Some (List.map
                 (fun p => normalizeCoordinates p (imgWidth data)
                             (imgHeight data))
                 (best :: rest))
    /\ getZoomStyle v
       = (div (add (xmin (normalizeCoordinates best (imgWidth data)
                            (imgHeight data)))
                   (xmax (normalizeCoordinates best (imgWidth data)
                            (imgHeight data))))
              (Fin 20),
          div (add (ymin (normalizeCoordinates best (imgWidth data)
                            (imgHeight data)))
                   (ymax (normalizeCoordinates best (imgWidth data)
                            (imgHeight data))))
              (Fin 20)).
Proof.
  intros Ha Hps Hne.
  destruct (analyzeImage_detections env img data ps Ha Hps Hne)
    as (front & best & back & rest & Hs & Hl & Hf & Hb & Hv).
  exists best, rest. eexists. repeat apply conj; try exact Hv.
  - rewrite <- Hs. apply sorted_perm.
  - rewrite <- Hs. apply sorted_descending.
  - rewrite Hl. apply Forall_app. split.
    + eapply Forall_impl; [|exact Hf]. intros p Hp. cbn beta in *. lra.
    + constructor; [lra | assumption].
  - reflexivity.
  - reflexivity.
  - unfold getZoomStyle, detection_verdict, verdict_status.
    cbn [status boundingBoxes List.map].
    now destruct (includes _ _).
Qed.

Lemma C10_witness :
  exists best rest v,
    Permutation [healthy_fish; lesion] (best :: rest)
    /\ descending (best :: rest)
    /\ Forall (fun p => conf p <= conf best) [healthy_fish; lesion]
    /\ analyzeImage
         (sample_env
            (success (sample_data (Array [healthy_fish; lesion])
                        (Some 640) (Some 480))))
         "data:image/jpeg;base64,AAAA"
       = ([], inr v)
    /\ confidence v = Fin (conf best)
    /\ boundingBoxes v
       = Some (List.map
                 (fun p => normalizeCoordinates p (Fin 640) (Fin 480))
                 (best :: rest))
    /\ getZoomStyle v
       = (div (add (xmin (normalizeCoordinates best (Fin 640) (Fin 480)))
                   (xmax (normalizeCoordinates best (Fin 640) (Fin 480))))
              (Fin 20),
          div (add (ymin (normalizeCoordinates best (Fin 640) (Fin 480)))
                   (ymax (normalizeCoordinates best (Fin 640) (Fin 480))))
              (Fin 20)).
Proof.
  apply (C10_boxes_follow_sorted_order
           (sample_env
              (success (sample_data (Array [healthy_fish; lesion])
                          (Some 640) (Some 480))))
           "data:image/jpeg;base64,AAAA"%string
           (sample_data (Array [healthy_fish; lesion])
              (Some 640) (Some 480))
           [healthy_fish; lesion]).
  - eexists. repeat split.
  - reflexivity.
  - discriminate.
Defined.

End Claims.

(** * Further properties of the pipeline *)

Section Extras.
Abbreviation conf := Prediction.confidence.
Abbreviation class := Prediction.class.

(** ** The request *)

Lemma prefix_empty (s : string) : String.prefix "" s = true.
Proof. destruct s; reflexivity. Qed.

(** A string holds the character [d] in its head or in its tail. *)
Lemma includes_char_cons (d c : ascii) (s : string) :
  includes (String c s) (String d "")
  = (Ascii.eqb d c || includes s (String d ""))%bool.
Proof.
  change (includes (String c s) (String d ""))
    with (String.prefix (String d "") (String c s)
          || includes s (String d ""))%bool.
  f_equal. cbn [String.prefix].
  destruct (ascii_dec d c) as [->|Hne].
  - now rewrite prefix_empty, Ascii.eqb_refl.
  - symmetry. now apply Ascii.eqb_neq.
Qed.

Lemma before_free (d : ascii) (s : string) :
  includes (before d s) (String d "") = false.
Proof.
  induction s as [|c s IH]; cbn [before]; [reflexivity|].
  destruct (Ascii.eqb c d) eqn:E; [reflexivity|].
  rewrite includes_char_cons, IH, Ascii.eqb_sym, E. reflexivity.
Qed.

Lemma before_all (d : ascii) (s : string) :
  includes s (String d "") = false -> before d s = s.
Proof.
  induction s as [|c s IH]; [reflexivity|].
  rewrite includes_char_cons, orb_false_iff. intros [Hc Hs].
  cbn [before]. rewrite Ascii.eqb_sym, Hc. now rewrite IH.
Qed.

Lemma after_found (d : ascii) (s : string) :
  includes s (String d "") = true -> exists t, after d s = Some t.
Proof.
  induction s as [|c s IH]; [discriminate|].
  rewrite includes_char_cons, orb_true_iff. cbn [after].
  destruct (Ascii.eqb c d) eqn:E; [eexists; reflexivity|].
  rewrite Ascii.eqb_sym, E. intros [H|H]; [discriminate | auto].
Qed.

Lemma after_first (d : ascii) (head tail : string) :
  includes head (String d "") = false ->
  after d (head ++ String d tail)%string = Some tail.
Proof.
  induction head as [|c head IH]; cbn [append after].
  - now rewrite Ascii.eqb_refl.
  - rewrite includes_char_cons, orb_false_iff. intros [Hc Hh].
    rewrite Ascii.eqb_sym, Hc. auto.
Qed.

(** X1.  The body of the request is always present and never holds a
    comma: an image without a comma is sent as it is, and of an image
    with one only the part between its first and its second comma is
    sent. *)
Theorem X1_request_body_has_no_comma (env : Env) (img : string) :
  exists payload,
    body (request env img) = Some payload
    /\ includes payload "," = false
    /\ (includes img "," = false /\ payload = img
        \/ includes img "," = true
           /\ exists rest,
                after ","%char img = Some rest
                /\ payload = before ","%char rest).
Proof.
  unfold request; cbn [body].
  destruct (includes img ",") eqn:E.
  - destruct (after_found _ _ E) as [rest Hrest].
    exists (before ","%char rest). unfold split_1. rewrite Hrest.
    repeat split; [apply before_free|].
    right. split; [reflexivity|]. now exists rest.
  - exists img. repeat split; [assumption|]. now left.
Qed.

(** X2.  Of a data URI, a header without a comma followed by a comma and
    a payload without one, the request sends the payload alone. *)
Theorem X2_data_uri_payload (env : Env) (header payload : string) :
  includes header "," = false ->
  includes payload "," = false ->
  body (request env (header ++ "," ++ payload)%string) = Some payload.
Proof.
  intros Hh Hp. unfold request; cbn [body].
  assert (E : includes (header ++ "," ++ payload)%string "," = true)
    by (apply includes_iff; exists header, payload; reflexivity).
  rewrite E. unfold split_1.
  change (header ++ "," ++ payload)%string
    with (header ++ String ","%char payload)%string.
  rewrite (after_first _ _ _ Hh). cbn [option_map].
  now rewrite (before_all _ _ Hp).
Qed.

Lemma X2_witness :
  body (request (sample_env (Rejects (Error "Failed to fetch"%string)))
          ("data:image/jpeg;base64" ++ "," ++ "AAAA")%string)
  = Some "AAAA"%string.
Proof.
  apply (X2_data_uri_payload
           (sample_env (Rejects (Error "Failed to fetch"%string)))
           "data:image/jpeg;base64"%string "AAAA"%string);
    reflexivity.
Defined.

(** ** The verdict *)

(** Every verdict [analyzeImage] returns is one of the two it builds:
    the one without detections, or the one read from a labelled element
    and with at least one box. *)
Lemma analyzeImage_inr_inv (env : Env) (img : string)
    (v : DetectionResult) :
  snd (analyzeImage env img) = inr v ->
  v = no_fish_verdict env img
  \/ (exists label c box boxes,
         v = element_verdict env img label c (box :: boxes)).
Proof.
  intros Hv. apply analyzeImage_returns in Hv. unfold attempt in Hv.
  destruct (fetch env (request env img)) as [e|response] eqn:Hf;
    [discriminate|].
  destruct (ok response) eqn:Hok; cbn [negb] in Hv; [|discriminate].
  destruct (json response) as [e| |data] eqn:Hj; try discriminate.
  assert (He : exists es,
             JSArray.run (verdict_of_elements env img (imgWidth data)
                            (imgHeight data)) es = inr v).
  { destruct (Data.predictions data) as [| |ps|es].
    - exists []. exact Hv.
    - discriminate.
    - exists (List.map element_of ps).
      now rewrite verdict_of_predictions.
    - exists es. exact Hv. }
  destruct He as [es He]. apply verdict_of_elements_inv in He.
  destruct He as [[_ ->] | (x & y & w & h & l & c & rest & boxes
                            & _ & _ & Hb & ->)]; [left; reflexivity|].
  right. destruct (boxes_of_returns env _ _ _ _ Hb) as [Hl _].
  destruct boxes as [|box boxes]; [discriminate|].
  exists l, c, box, boxes. reflexivity.
Qed.

(** X3.  Every verdict [analyzeImage] returns, whatever the body of the
    response, has one of three shapes: No Fish Detected with confidence
    0, no box and the advice to scan again; Safe with at least one box
    and the advice for a normal sample; Contaminated with at least one
    box and the advice not to consume.  It is never Inconclusive, and it
    carries the image it was asked about, the time of the environment
    and the fixed location. *)
Theorem X3_verdict_shapes (env : Env) (img : string)
    (v : DetectionResult) :
  snd (analyzeImage env img) = inr v ->
  ((status v = NoFishDetected
    /\ confidence v = Fin 0
    /\ boundingBoxes v = Some []
    /\ guidance v
       = "Please try scanning again. Position the fish clearly in the center of the frame."%string)
   \/ (status v = Safe
       /\ (exists box boxes, boundingBoxes v = Some (box :: boxes))
       /\ guidance v
          = "Sample appears normal. However, always stay updated with the latest BFAR Red Tide Bulletins before consumption."%string)
   \/ (status v = Contaminated
       /\ (exists box boxes, boundingBoxes v = Some (box :: boxes))
       /\ guidance v
          = "DO NOT CONSUME. Report this sample to the nearest BFAR or LLDA station immediately."%string))
  /\ status v <> Inconclusive
  /\ image v = img
  /\ timestamp v = now env
  /\ location v = Some "Binangonan, Rizal"%string.
Proof.
  intros Hv.
  destruct (analyzeImage_inr_inv env img v Hv)
    as [-> | (label & c & box & boxes & ->)].
  - split; [left; repeat split | repeat split; discriminate].
  - cbn [status boundingBoxes guidance image timestamp location
         element_verdict].
    unfold status_of_label.
    destruct (includes _ _); cbn [is_Safe];
      (split; [|repeat split; discriminate]);
      [right; left | right; right]; repeat split; eauto.
Qed.

Lemma X3_witness :
  let env :=
    sample_env
      (success (sample_data (Entries [bare_label]) (Some 640) (Some 480))) in
  let img := "data:image/jpeg;base64,AAAA"%string in
  let v :=
    element_verdict env img "lesion" Undefined
      [normalizeElement Undefined Undefined Undefined Undefined
         (Fin 640) (Fin 480)] in
  ((status v = NoFishDetected
    /\ confidence v = Fin 0
    /\ boundingBoxes v = Some []
    /\ guidance v
       = "Please try scanning again. Position the fish clearly in the center of the frame."%string)
   \/ (status v = Safe
       /\ (exists box boxes, boundingBoxes v = Some (box :: boxes))
       /\ guidance v
          = "Sample appears normal. However, always stay updated with the latest BFAR Red Tide Bulletins before consumption."%string)
   \/ (status v = Contaminated
       /\ (exists box boxes, boundingBoxes v = Some (box :: boxes))
       /\ guidance v
          = "DO NOT CONSUME. Report this sample to the nearest BFAR or LLDA station immediately."%string))
  /\ status v <> Inconclusive
  /\ image v = img
  /\ timestamp v = now env
  /\ location v = Some "Binangonan, Rizal"%string.
Proof.
  apply (X3_verdict_shapes
           (sample_env
              (success (sample_data (Entries [bare_label])
                          (Some 640) (Some 480))))
           "data:image/jpeg;base64,AAAA"%string).
  reflexivity.
Defined.

(** X4.  Every prediction of the response gets exactly one box: the boxes
    of the verdict are the normalized predictions, in some order, and
    there are as many boxes as predictions. *)
Theorem X4_one_box_per_prediction
    (env : Env) (img : string) (data : Data.t) (ps : list Prediction.t) :
  answers env img data ->
  Data.predictions data = Array ps ->
  exists v boxes,
    analyzeImage env img = ([], inr v)
    /\ boundingBoxes v = Some boxes
    /\ Permutation
         (List.map
            (fun p => normalizeCoordinates p (imgWidth data)
                        (imgHeight data)) ps)
         boxes
    /\ List.length boxes = List.length ps.
Proof.
  intros Ha Hps.
  destruct (analyzeImage_boxes env img data ps Ha Hps) as (v & Hv & Hb).
  exists v. eexists. split; [exact Hv|]. split; [exact Hb|]. split.
  - apply Permutation_map, sorted_perm.
  - rewrite length_map. symmetry.
    apply Permutation_length, sorted_perm.
Qed.

Lemma X4_witness :
  exists v boxes,
    analyzeImage
      (sample_env
         (success (sample_data (Array [healthy_fish; lesion])
                     (Some 640) (Some 480))))
      "data:image/jpeg;base64,AAAA"
    = ([], inr v)
    /\ boundingBoxes v = Some boxes
    /\ Permutation
         (List.map (fun p => normalizeCoordinates p (Fin 640) (Fin 480))
            [healthy_fish; lesion])
         boxes
    /\ List.length boxes = List.length [healthy_fish; lesion].
Proof.
  apply (X4_one_box_per_prediction
           (sample_env
              (success (sample_data (Array [healthy_fish; lesion])
                          (Some 640) (Some 480))))
           "data:image/jpeg;base64,AAAA"%string
           (sample_data (Array [healthy_fish; lesion])
              (Some 640) (Some 480))
           [healthy_fish; lesion]).
  - eexists. repeat split.
  - reflexivity.
Defined.

(** ** The zoom *)

Lemma in_range_fin (n : number) :
  in_range n -> exists q, n = Fin q /\ 0 <= q <= 1000.
Proof.
  unfold in_range. destruct n as [| | |q]; cbn [le]; intros [H0 H1];
    try contradiction.
  exists q. auto.
Qed.

Lemma div_20 (a : Q) : div (Fin a) (Fin 20) = Fin (a * (1 # 20)).
Proof. reflexivity. Qed.

Lemma zoom_of_box_in_percent (b : BoundingBox) :
  box_in_range b ->
  in_percent (div (add (xmin b) (xmax b)) (Fin 20))
  /\ in_percent (div (add (ymin b) (ymax b)) (Fin 20)).
Proof.
  intros (Hy0 & Hx0 & Hy1 & Hx1).
  destruct (in_range_fin _ Hy0) as (y0 & -> & ?).
  destruct (in_range_fin _ Hx0) as (x0 & -> & ?).
  destruct (in_range_fin _ Hy1) as (y1 & -> & ?).
  destruct (in_range_fin _ Hx1) as (x1 & -> & ?).
  unfold in_percent. cbn [add]. rewrite !div_20. cbn [le].
  repeat split; lra.
Qed.

(** X7.  When every coordinate of every element of the prediction array
    is a finite number and the image dimensions are finite numbers or
    missing, the origin the result display zooms on is a pair of
    percentages between 0 and 100.  Where the order of the array is left
    to the engine, the engine's sort is taken to return the elements it
    was given. *)
Theorem X7_zoom_origin_in_percent
    (env : Env) (img : string) (data : Data.t) (es : list Element)
    (v : DetectionResult) :
  answers env img data ->
  sort_permutes env ->
  elements_of data = Some es ->
  Forall finite_box es ->
  finite_dim (width_of data) ->
  finite_dim (height_of data) ->
  snd (analyzeImage env img) = inr v ->
  in_percent (fst (getZoomStyle v)) /\ in_percent (snd (getZoomStyle v)).
Proof.
  intros Ha Hp He Hfin HW HH Hv.
  destruct (finite_boxes_in_range env img data es v Ha Hp He Hfin HW HH Hv)
    as (boxes & Hb & _ & Hr).
  assert (Hmid : in_percent (Fin 50))
    by (unfold in_percent; cbn [le]; lra).
  unfold getZoomStyle. rewrite Hb.
  destruct boxes as [|b boxes];
    [destruct (status v); cbn [fst snd]; auto|].
  inversion Hr as [|? ? Hbr _]; subst.
  destruct (zoom_of_box_in_percent b Hbr).
  destruct (status v); cbn [fst snd]; auto.
Qed.

Lemma X7_witness :
  in_percent
    (fst (getZoomStyle
            (detection_verdict
               (sample_env
                  (success (sample_data (Array [healthy_fish; lesion])
                              (Some 640) (Some 480))))
               "data:image/jpeg;base64,AAAA" (Fin 640) (Fin 480)
               lesion [healthy_fish])))
  /\ in_percent
       (snd (getZoomStyle
               (detection_verdict
                  (sample_env
                     (success (sample_data (Array [healthy_fish; lesion])
                                 (Some 640) (Some 480))))
                  "data:image/jpeg;base64,AAAA" (Fin 640) (Fin 480)
                  lesion [healthy_fish]))).
Proof.
  apply (X7_zoom_origin_in_percent
           (sample_env
              (success (sample_data (Array [healthy_fish; lesion])
                          (Some 640) (Some 480))))
           "data:image/jpeg;base64,AAAA"%string
           (sample_data (Array [healthy_fish; lesion])
              (Some 640) (Some 480))
           (List.map element_of [healthy_fish; lesion])).
  - eexists. repeat split.
  - intros es es' H. injection H as <-. apply Permutation_refl.
  - reflexivity.
  - repeat constructor.
  - exact I.
  - exact I.
  - reflexivity.
Defined.

(** ** The running application *)

Ltac open_world w :=
  let st := fresh "st" in let res := fresh "res" in
  let err := fresh "err" in let last := fresh "last" in
  let flash := fresh "flash" in let fl := fresh "fl" in
  destruct w as [[st res err last flash] fl];
  cbn [app inFlight App.status App.result App.error App.lastImg
       App.isFlashOn] in *.

Ltac settle_case env img :=
  let e := fresh "e" in let v := fresh "v" in let E := fresh "E" in
  destruct (snd (analyzeImage env img)) as [e|v] eqn:E;
  [apply analyzeImage_rejection in E; subst e|].

Ltac by_cases :=
  cbn in *; repeat split; intros; subst; try discriminate;
  try congruence; eauto.

Lemma fire_consistent (env : Env) (e : Event) (w w' : World) :
  consistent env w -> fire env e w = Some w' -> consistent env w'.
Proof.
  unfold consistent, fire, screen. open_world w.
  intros (Hidle & Hana & Hsucc & Herr & Hmsg & Hres) Hfire.
  destruct e as [img|img|i| |].
  - destruct res as [r|]; [discriminate|].
    destruct (is_ANALYZING st); [discriminate|].
    injection Hfire as <-. by_cases.
  - assert (Hbegin :
             Some {| app := App.handleCapture_begin img
                              {| App.status := st; App.result := res;
                                 App.error := err; App.lastImg := last;
                                 App.isFlashOn := flash |};
                     inFlight := img :: fl |} = Some w')
      by (destruct res; exact Hfire).
    clear Hfire. injection Hbegin as <-. by_cases.
  - assert (Hsettle :
             match nth_error fl i with
             | Some imageData =>
                 Some {| app := App.handleCapture_settle
                                  (snd (analyzeImage env imageData))
                                  {| App.status := st; App.result := res;
                                     App.error := err; App.lastImg := last;
                                     App.isFlashOn := flash |};
                         inFlight := firstn i fl ++ skipn (S i) fl |}
             | None => None
             end = Some w') by (destruct res; exact Hfire).
    clear Hfire. destruct (nth_error fl i) as [img|]; [|discriminate].
    injection Hsettle as <-. settle_case env img; by_cases.
    injection H as <-. eauto.
  - destruct res as [r|]; [|discriminate].
    injection Hfire as <-. by_cases.
  - destruct res as [r|]; [discriminate|].
    injection Hfire as <-. by_cases;
      try (now apply Hidle); now apply Hana.
Qed.

Lemma start_consistent (env : Env) : consistent env start.
Proof. unfold consistent. by_cases. Qed.

Lemma fire_all_consistent (env : Env) (es : list Event) (w w' : World) :
  consistent env w -> fire_all env es w = Some w' -> consistent env w'.
Proof.
  revert w. induction es as [|e es IH]; intros w Hw Hrun;
    cbn [fire_all] in Hrun.
  - now injection Hrun as <-.
  - destruct (fire env e w) as [w1|] eqn:E; [|discriminate].
    eapply IH; [|exact Hrun]. eapply fire_consistent; eassumption.
Qed.

(** X13.  Whatever the user does and in whatever order the files read
    and the analyses in flight come back, the stored fields agree with
    the status: in the idle state there is neither verdict nor error;
    while analyzing there is no error and a request is in flight; in the
    success state a verdict is stored; in the error state the stored
    error is the fixed message.  No other error message is ever stored,
    and every stored verdict is one that [analyzeImage] returned.  A
    verdict can be stored while analyzing, when a file comes back behind
    the result display. *)
Theorem X13_state_agrees_with_status
    (env : Env) (es : list Event) (w : World) :
  fire_all env es start = Some w ->
  (App.status (app w) = IDLE ->
   App.result (app w) = None /\ App.error (app w) = None)
  /\ (App.status (app w) = ANALYZING ->
      App.error (app w) = None /\ inFlight w <> [])
  /\ (App.status (app w) = SUCCESS -> App.result (app w) <> None)
  /\ (App.status (app w) = ERROR ->
      App.error (app w)
      = Some "Detection failed. Please check your Roboflow API configuration."%string)
  /\ (forall m,
         App.error (app w) = Some m ->
         m = "Detection failed. Please check your Roboflow API configuration."%string)
  /\ (forall v,
         App.result (app w) = Some v ->
         exists imageData, snd (analyzeImage env imageData) = inr v).
Proof.
  intros Hrun.
  exact (fire_all_consistent env es start w (start_consistent env) Hrun).
Qed.

(** A file that comes back after the verdict of an earlier capture was
    stored: the status is analyzing again and the verdict is still
    stored and shown. *)
Example late_file_behind_result :
  exists w v,
    fire_all
      (picky_env (sample_data (Array [healthy_fish; lesion])
                    (Some 640) (Some 480)))
      [Shutter "data:image/jpeg;base64,AAAA"; Settled 0;
       FilePicked "data:image/jpeg;base64,BBBB"]
      start
    = Some w
    /\ App.status (app w) = ANALYZING
    /\ App.result (app w) = Some v
    /\ screen (app w) = ResultScreen v.
Proof. do 2 eexists. repeat split. Qed.

Lemma X13_witness :
  exists w,
    fire_all
      (picky_env (sample_data (Array [healthy_fish; lesion])
                    (Some 640) (Some 480)))
      [Shutter "data:image/jpeg;base64,AAAA"; Settled 0;
       FilePicked "data:image/jpeg;base64,BBBB"]
      start
    = Some w
    /\ App.status (app w) = ANALYZING
    /\ App.error (app w) = None
    /\ inFlight w <> []
    /\ (forall m,
           App.error (app w) = Some m ->
           m = "Detection failed. Please check your Roboflow API configuration."%string).
Proof.
  eexists. split; [reflexivity|].
  split; [reflexivity|].
  destruct (X13_state_agrees_with_status
              (picky_env (sample_data (Array [healthy_fish; lesion])
                            (Some 640) (Some 480)))
              [Shutter "data:image/jpeg;base64,AAAA"%string; Settled 0;
               FilePicked "data:image/jpeg;base64,BBBB"%string]
              _ eq_refl)
    as (_ & Hana & _ & _ & Hmsg & _).
  destruct (Hana eq_refl) as [Herr Hfl].
  split; [exact Herr|]. split; [exact Hfl | exact Hmsg].
Defined.

Lemma fire_sequential (env : Env) (e : Event) (w w' : World) :
  is_FilePicked e = false ->
  sequential w -> fire env e w = Some w' -> sequential w'.
Proof.
  unfold sequential, fire, screen. open_world w.
  intros He (Hlen & Hfl & Hres & Herr) Hfire.
  destruct e as [img|img|i| |]; [| discriminate | | |].
  - destruct res as [r|]; [discriminate|].
    destruct st; cbn [is_ANALYZING] in Hfire; try discriminate;
      injection Hfire as <-;
      (assert (Hnil : fl = [])
         by (destruct fl; [reflexivity|];
             assert (Hx : IDLE = ANALYZING \/ SUCCESS = ANALYZING
                          \/ ERROR = ANALYZING -> False)
               by (intros [?|[?|?]]; discriminate);
             exfalso; apply Hx;
             first [left; apply Hfl; discriminate
                   |right; left; apply Hfl; discriminate
                   |right; right; apply Hfl; discriminate]));
      subst fl; cbn; repeat split; intros; try discriminate;
      try congruence; auto.
  - assert (Hsettle :
             match nth_error fl i with
             | Some imageData =>
                 Some {| app := App.handleCapture_settle
                                  (snd (analyzeImage env imageData))
                                  {| App.status := st; App.result := res;
                                     App.error := err; App.lastImg := last;
                                     App.isFlashOn := flash |};
                         inFlight := firstn i fl ++ skipn (S i) fl |}
             | None => None
             end = Some w') by (destruct res; exact Hfire).
    clear Hfire.
    destruct fl as [|img0 [|img1 fl]];
      [destruct i; discriminate | | cbn in Hlen; lia].
    assert (Hst : st = ANALYZING) by (apply Hfl; discriminate).
    subst st.
    assert (Hr : res = None).
    { destruct res; [|reflexivity].
      assert (ANALYZING = SUCCESS) by (apply Hres; discriminate).
      discriminate. }
    assert (Hen : err = None).
    { destruct err; [|reflexivity].
      assert (ANALYZING = ERROR) by (apply Herr; discriminate).
      discriminate. }
    subst res err.
    destruct i as [|i]; [|destruct i; discriminate].
    cbn in Hsettle. injection Hsettle as <-.
    settle_case env img0; cbn; repeat split; intros;
      try discriminate; try congruence; auto.
  - destruct res as [r|]; [|discriminate].
    injection Hfire as <-.
    assert (Hst : st = SUCCESS) by (apply Hres; discriminate).
    subst st.
    assert (Hnil : fl = []).
    { destruct fl; [reflexivity|].
      assert (SUCCESS = ANALYZING) by (apply Hfl; discriminate).
      discriminate. }
    subst fl. cbn. repeat split; intros; try discriminate;
      try congruence; auto.
  - destruct res as [r|]; [discriminate|].
    injection Hfire as <-. cbn. repeat split; intros; auto;
      try (now apply Hfl); try (now apply Hres); try (now apply Herr).
Qed.

Lemma start_sequential : sequential start.
Proof.
  unfold sequential. cbn. repeat split; intros; try discriminate;
    try congruence; auto.
Qed.

Lemma fire_all_sequential (env : Env) (es : list Event) (w w' : World) :
  forallb (fun e => negb (is_FilePicked e)) es = true ->
  sequential w -> fire_all env es w = Some w' -> sequential w'.
Proof.
  revert w. induction es as [|e es IH]; intros w Hes Hw Hrun;
    cbn [fire_all forallb] in *.
  - now injection Hrun as <-.
  - apply andb_true_iff in Hes. destruct Hes as [He Hes].
    apply negb_true_iff in He.
    destruct (fire env e w) as [w1|] eqn:E; [|discriminate].
    eapply IH; [exact Hes | | exact Hrun].
    eapply fire_sequential; eassumption.
Qed.

(** X14.  As long as frames come from the shutter button only, the
    application is the sequential state machine: at most one analysis is
    in flight, one is in flight exactly while the status is analyzing, a
    verdict is stored exactly in the success state and an error exactly
    in the error state. *)
Theorem X14_shutter_only_is_sequential
    (env : Env) (es : list Event) (w : World) :
  forallb (fun e => negb (is_FilePicked e)) es = true ->
  fire_all env es start = Some w ->
  (List.length (inFlight w) <= 1)%nat
  /\ (inFlight w <> [] <-> App.status (app w) = ANALYZING)
  /\ (App.result (app w) <> None <-> App.status (app w) = SUCCESS)
  /\ (App.error (app w) <> None <-> App.status (app w) = ERROR).
Proof.
  intros Hes Hrun.
  exact (fire_all_sequential env es start w Hes start_sequential Hrun).
Qed.

Lemma X14_witness :
  exists w,
    fire_all
      (picky_env (sample_data (Array [healthy_fish; lesion])
                    (Some 640) (Some 480)))
      [Shutter "data:image/jpeg;base64,BBBB"; Settled 0;
       FlashToggled;
       Shutter "data:image/jpeg;base64,AAAA"; Settled 0;
       ScanAgain;
       Shutter "data:image/jpeg;base64,AAAA"]
      start
    = Some w
    /\ (List.length (inFlight w) <= 1)%nat
    /\ (inFlight w <> [] <-> App.status (app w) = ANALYZING)
    /\ (App.result (app w) <> None <-> App.status (app w) = SUCCESS)
    /\ (App.error (app w) <> None <-> App.status (app w) = ERROR).
Proof.
  eexists. split; [reflexivity|].
  apply (X14_shutter_only_is_sequential
           (picky_env (sample_data (Array [healthy_fish; lesion])
                         (Some 640) (Some 480)))
           [Shutter "data:image/jpeg;base64,BBBB"%string; Settled 0;
            FlashToggled;
            Shutter "data:image/jpeg;base64,AAAA"%string; Settled 0;
            ScanAgain;
            Shutter "data:image/jpeg;base64,AAAA"%string]);
    reflexivity.
Defined.

(** X15.  The file input stays enabled while an analysis is in flight, so
    two analyses can overlap.  When the first image picked is analysed
    successfully and the second one fails afterwards, the application
    ends in the error state with the verdict of the first image stored
    and shown, the frame of the second image as the last one, and the
    fixed error stored behind the result display. *)
Theorem X15_file_input_lets_analyses_overlap
    (env : Env) (first second : string) (v : DetectionResult) :
  snd (analyzeImage env first) = inr v ->
  (exists e, snd (analyzeImage env second) = inl e) ->
  exists w,
    fire_all env [FilePicked first; FilePicked second; Settled 1; Settled 0]
      start
    = Some w
    /\ inFlight w = []
    /\ App.status (app w) = ERROR
    /\ App.result (app w) = Some v
    /\ App.error (app w)
       = Some "Detection failed. Please check your Roboflow API configuration."%string
    /\ App.lastImg (app w) = Some second
    /\ screen (app w) = ResultScreen v.
Proof.
  intros Hfirst [e Hsecond].
  pose proof (analyzeImage_rejection env second e Hsecond) as He. subst e.
  eexists. split.
  - cbn [fire_all fire screen start app inFlight App.result App.initial
         App.handleCapture_begin App.setError App.setStatus
         App.setLastImg nth_error firstn skipn List.app].
    rewrite Hfirst.
    cbn [App.handleCapture_settle App.setStatus App.setResult screen
         app inFlight App.result nth_error firstn skipn List.app].
    rewrite Hsecond. reflexivity.
  - repeat split.
Qed.

Lemma X15_witness :
  exists w,
    fire_all
      (picky_env (sample_data (Array [healthy_fish; lesion])
                    (Some 640) (Some 480)))
      [FilePicked "data:image/jpeg;base64,AAAA";
       FilePicked "data:image/jpeg;base64,BBBB";
       Settled 1; Settled 0]
      start
    = Some w
    /\ inFlight w = []
    /\ App.status (app w) = ERROR
    /\ App.result (app w)
       = Some (detection_verdict
                 (picky_env (sample_data (Array [healthy_fish; lesion])
                               (Some 640) (Some 480)))
                 "data:image/jpeg;base64,AAAA" (Fin 640) (Fin 480)
                 lesion [healthy_fish])
    /\ App.error (app w)
       = Some "Detection failed. Please check your Roboflow API configuration."%string
    /\ App.lastImg (app w) = Some "data:image/jpeg;base64,BBBB"%string
    /\ screen (app w)
       = ResultScreen
           (detection_verdict
              (picky_env (sample_data (Array [healthy_fish; lesion])
                            (Some 640) (Some 480)))
              "data:image/jpeg;base64,AAAA" (Fin 640) (Fin 480)
              lesion [healthy_fish]).
Proof.
  apply (X15_file_input_lets_analyses_overlap
           (picky_env (sample_data (Array [healthy_fish; lesion])
                         (Some 640) (Some 480)))
           "data:image/jpeg;base64,AAAA"%string
           "data:image/jpeg;base64,BBBB"%string).
  - reflexivity.
  - eexists. reflexivity.
Defined.

(** ** The header of the data URI *)

Lemma request_of_data_uri (env : Env) (header rest : string) :
  includes header "," = false ->
  request env (header ++ "," ++ rest)%string
  = {| url := (MODEL_ENDPOINT ++ "?api_key=" ++ ROBOFLOW_API_KEY env
                 ++ "&confidence=25")%string;
       method := "POST"%string;
       body := Some (before ","%char rest);
       contentType := "application/x-www-form-urlencoded"%string |}.
Proof.
  intros Hh. unfold request. f_equal.
  assert (E : includes (header ++ "," ++ rest)%string "," = true)
    by (apply includes_iff; exists header, rest; reflexivity).
  rewrite E. unfold split_1.
  change (header ++ "," ++ rest)%string
    with (header ++ String ","%char rest)%string.
  now rewrite (after_first _ _ _ Hh).
Qed.

Lemma verdict_same (env : Env) (img1 img2 : string) (W H : number)
    (ps : list Prediction.t) :
  same_analysis (JSArray.run (verdict env img1 W H) ps)
                (JSArray.run (verdict env img2 W H) ps).
Proof.
  destruct ps as [|p ps].
  - rewrite !verdict_no_detections. repeat split.
  - destruct (sorted_head (p :: ps)) as (_ & best & _ & rest & Hs & _);
      [discriminate|].
    rewrite !(verdict_detections _ _ _ _ _ _ _ Hs). repeat split.
Qed.

Lemma verdict_of_elements_same (env : Env) (img1 img2 : string)
    (W H : number) (es : list Element) :
  same_analysis (JSArray.run (verdict_of_elements env img1 W H) es)
                (JSArray.run (verdict_of_elements env img2 W H) es).
Proof.
  destruct es as [|e es].
  - rewrite !verdict_of_no_elements. repeat split.
  - unfold JSArray.run, verdict_of_elements, JSArray.bind,
      JSArray.length, sort_elements, JSArray.get, map_elements,
      JSArray.ret.
    cbn [List.length Nat.ltb Nat.leb].
    destruct (sorted_elements env (e :: es)) as [err|l]; [reflexivity|].
    destruct l as [|[|x y w h [| |label] c] rest];
      cbn [nth_error label_of JSArray.throw JSArray.ret fst];
      try reflexivity.
    destruct (boxes_of env W H (Object x y w h (Label label) c :: rest));
      cbn [fst]; [reflexivity | repeat split].
Qed.

Lemma attempt_same (env : Env) (img1 img2 : string) :
  request env img1 = request env img2 ->
  same_analysis (attempt env img1) (attempt env img2).
Proof.
  intros Hreq. unfold attempt. rewrite Hreq.
  destruct (fetch env (request env img2)) as [e|response];
    [reflexivity|].
  destruct (negb (ok response)); [reflexivity|].
  destruct (json response) as [e| |data]; try reflexivity.
  destruct (Data.predictions data); try reflexivity;
    [apply verdict_same | apply verdict_same
    | apply verdict_of_elements_same].
Qed.

(** X17.  The header of a data URI has no part in the analysis: two
    images with the same text after the first comma write the same to
    the console and settle alike, with the same error or with verdicts
    that differ at most in the image they carry. *)
Theorem X17_header_has_no_influence
    (env : Env) (header1 header2 rest : string) :
  includes header1 "," = false ->
  includes header2 "," = false ->
  fst (analyzeImage env (header1 ++ "," ++ rest)%string)
  = fst (analyzeImage env (header2 ++ "," ++ rest)%string)
  /\ same_analysis
       (snd (analyzeImage env (header1 ++ "," ++ rest)%string))
       (snd (analyzeImage env (header2 ++ "," ++ rest)%string)).
Proof.
  intros H1 H2.
  assert (Hreq : request env (header1 ++ "," ++ rest)%string
                 = request env (header2 ++ "," ++ rest)%string)
    by now rewrite !request_of_data_uri.
  pose proof (attempt_same env _ _ Hreq) as Hsame.
  unfold analyzeImage.
  destruct (attempt env (header1 ++ "," ++ rest)%string) as [e1|v1];
    destruct (attempt env (header2 ++ "," ++ rest)%string) as [e2|v2];
    cbn [same_analysis] in Hsame; try contradiction; cbn [fst snd].
  - subst e2. split; reflexivity.
  - split; [reflexivity | exact Hsame].
Qed.

Lemma X17_witness :
  fst (analyzeImage
         (picky_env (sample_data (Array [healthy_fish; lesion])
                       (Some 640) (Some 480)))
         ("data:image/jpeg;base64" ++ "," ++ "AAAA")%string)
  = fst (analyzeImage
           (picky_env (sample_data (Array [healthy_fish; lesion])
                         (Some 640) (Some 480)))
           ("data:image/png;base64" ++ "," ++ "AAAA")%string)
  /\ same_analysis
       (snd (analyzeImage
               (picky_env (sample_data (Array [healthy_fish; lesion])
                             (Some 640) (Some 480)))
               ("data:image/jpeg;base64" ++ "," ++ "AAAA")%string))
       (snd (analyzeImage
               (picky_env (sample_data (Array [healthy_fish; lesion])
                             (Some 640) (Some 480)))
               ("data:image/png;base64" ++ "," ++ "AAAA")%string)).
Proof.
  apply (X17_header_has_no_influence
           (picky_env (sample_data (Array [healthy_fish; lesion])
                         (Some 640) (Some 480)))
           "data:image/jpeg;base64"%string "data:image/png;base64"%string
           "AAAA"%string);
    reflexivity.
Defined.

End Extras.
